(** * AgriFarm: the Nepali sowing-calendar resolver of [bla_bla_bla.py]

    A shallow embedding of [_normalize_nepali_month],
    [get_nepali_sowing_dates] and [get_crops_for_place], together with the
    parts of the Python runtime they call ([str] methods, [re.sub] on one
    character class, [difflib.get_close_matches], [datetime.date]).

    Conventions.
    - A Python [str] is a list of Unicode code points ([pystr]).
    - A Python exception is a value of [exn]; a computation that may raise
      returns [result].
    - [datetime.date.today()] reads the clock: the resolver takes the value
      it returns as the argument [today].
    - The data frame [df] (read from [clean.csv], which is not part of the
      sources) and the Unicode lowercase table for code points outside
      ASCII are parameters. *)

From Stdlib Require Import ZArith List Bool Lia String Ascii QArith DecimalString.
Import ListNotations.
Local Open Scope Z_scope.

(* ================================================================= *)
(** ** Exceptions and the error monad *)

Definition char := Z.
Definition pystr := list char.

(** An ASCII literal as a Python string. *)
Definition u (s : string) : pystr :=
  map (fun a => Z.of_N (N_of_ascii a)) (list_ascii_of_string s).

Inductive exn : Type :=
| ValueError (msg : pystr)
| OverflowError (msg : pystr)
| KeyError (key : pystr).

(** [str(e)].  For a [KeyError] it is [repr(key)], written here for a key
    without quotes or escapes, which month names are. *)
Definition exn_str (e : exn) : pystr :=
  match e with
  | ValueError msg => msg
  | OverflowError msg => msg
  | KeyError key => u "'" ++ key ++ u "'"
  end.

Inductive result (A : Type) : Type :=
| Ok (a : A)
| Raise (e : exn).
Arguments Ok {A} a.
Arguments Raise {A} e.

Definition bind {A B} (c : result A) (k : A -> result B) : result B :=
  match c with
  | Ok a => k a
  | Raise e => Raise e
  end.

Declare Scope py_scope.
Delimit Scope py_scope with py.
Notation "x <- c1 ;; c2" := (bind c1 (fun x => c2))
  (at level 61, c1 at next level, right associativity) : py_scope.
Notation "' pat <- c1 ;; c2" := (bind c1 (fun x => match x with pat => c2 end))
  (at level 61, pat pattern, c1 at next level, right associativity) : py_scope.
Local Open Scope py_scope.

(** A list comprehension whose body may raise: elements are evaluated left
    to right and the first exception ends the comprehension. *)
Fixpoint comprehension {A B} (f : A -> result B) (l : list A) : result (list B) :=
  match l with
  | [] => Ok []
  | x :: l' => y <- f x ;; ys <- comprehension f l' ;; Ok (y :: ys)
  end.

(** [range(n)]: empty when [n <= 0]. *)
Definition range (n : Z) : list Z := map Z.of_nat (seq 0 (Z.to_nat n)).

(* ================================================================= *)
(** ** Strings *)

Module Str.

Fixpoint eqb (a b : pystr) : bool :=
  match a, b with
  | [], [] => true
  | x :: a', y :: b' => (x =? y) && eqb a' b'
  | _, _ => false
  end.

(** [str.isspace] on one code point, the set [str.strip()] removes. *)
Definition isspace (c : char) : bool :=
  ((9 <=? c) && (c <=? 13)) || ((28 <=? c) && (c <=? 32))
  || (c =? 133) || (c =? 160) || (c =? 5760)
  || ((8192 <=? c) && (c <=? 8202))
  || (c =? 8232) || (c =? 8233) || (c =? 8239) || (c =? 8287) || (c =? 12288).

Fixpoint lstrip (s : pystr) : pystr :=
  match s with
  | c :: s' => if isspace c then lstrip s' else s
  | [] => []
  end.

Definition rstrip (s : pystr) : pystr := rev (lstrip (rev s)).

Definition strip (s : pystr) : pystr := rstrip (lstrip s).

(** The four dash glyphs of the source data. *)
Definition EM_DASH : char := 8212.   (* U+2014 *)
Definition HYPHEN : char := 45.      (* U+002D *)
Definition MINUS_SIGN : char := 8722. (* U+2212 *)
Definition EN_DASH : char := 8211.   (* U+2013 *)
Definition LPAREN : char := 40.      (* U+0028 *)

Definition is_dash (c : char) : bool :=
  (c =? EM_DASH) || (c =? HYPHEN) || (c =? MINUS_SIGN) || (c =? EN_DASH).

Section Lower.

(** The lowercase mapping of the Unicode database for the code points that
    are neither ASCII nor one of the dash glyphs (one code point may lower
    to several).  [str.lower] applies it code point by code point; its one
    context rule, for the Greek capital sigma at the end of a word, is not
    modelled. *)
Variable unicode_lower : char -> pystr.

Definition lower_char (c : char) : pystr :=
  if (65 <=? c) && (c <=? 90) then [c + 32]
  else if (c <? 128) || is_dash c then [c]
  else unicode_lower c.

Definition lower (s : pystr) : pystr := flat_map lower_char s.

End Lower.

(** ASCII upper-casing, [str.upper] on an ASCII string. *)
Definition upper_ascii (s : pystr) : pystr :=
  map (fun c => if (97 <=? c) && (c <=? 122) then c - 32 else c) s.

Fixpoint startswith (s prefix : pystr) : bool :=
  match prefix, s with
  | [], _ => true
  | p :: prefix', c :: s' => (p =? c) && startswith s' prefix'
  | _ :: _, [] => false
  end.

(** [sub in s]. *)
Fixpoint contains (sub s : pystr) : bool :=
  startswith s sub
  || match s with
     | [] => false
     | _ :: s' => contains sub s'
     end.

(** [s.split(sep)] for a one-character separator. *)
Fixpoint split (sep : char) (s : pystr) : list pystr :=
  match s with
  | [] => [[]]
  | c :: s' =>
      if c =? sep then [] :: split sep s'
      else match split sep s' with
           | seg :: rest => (c :: seg) :: rest
           | [] => [[c]]
           end
  end.

(** [str(n)] for an integer. *)
Definition of_Z (n : Z) : pystr :=
  u (DecimalString.NilZero.string_of_int (Z.to_int n)).

End Str.

(* ================================================================= *)
(** ** [datetime.date] *)

Module datetime.

Definition MINYEAR : Z := 1.
Definition MAXYEAR : Z := 9999.
Definition _MAXORDINAL : Z := 3652059.

Definition _DAYS_IN_MONTH : list Z :=
  [-1; 31; 28; 31; 30; 31; 30; 31; 31; 30; 31; 30; 31].
Definition _DAYS_BEFORE_MONTH : list Z :=
  [-1; 0; 31; 59; 90; 120; 151; 181; 212; 243; 273; 304; 334].

(** [l[i]] for an index the callers keep in range. *)
Definition item (l : list Z) (i : Z) : Z := nth (Z.to_nat i) l 0.

Definition _is_leap (year : Z) : bool :=
  (year mod 4 =? 0) && (negb (year mod 100 =? 0) || (year mod 400 =? 0)).

Definition _days_before_year (year : Z) : Z :=
  let y := year - 1 in
  y * 365 + y / 4 - y / 100 + y / 400.

Definition _days_in_month (year month : Z) : Z :=
  if (month =? 2) && _is_leap year then 29 else item _DAYS_IN_MONTH month.

Definition _days_before_month (year month : Z) : Z :=
  item _DAYS_BEFORE_MONTH month
  + (if (2 <? month) && _is_leap year then 1 else 0).

Definition _ymd2ord (year month day : Z) : Z :=
  _days_before_year year + _days_before_month year month + day.

Definition _DI400Y : Z := 146097.
Definition _DI100Y : Z := 36524.
Definition _DI4Y : Z := 1461.

Definition _ord2ymd (n : Z) : Z * Z * Z :=
  let n := n - 1 in
  let n400 := n / _DI400Y in
  let n := n mod _DI400Y in
  let year := n400 * 400 + 1 in
  let n100 := n / _DI100Y in
  let n := n mod _DI100Y in
  let n4 := n / _DI4Y in
  let n := n mod _DI4Y in
  let n1 := n / 365 in
  let n := n mod 365 in
  let year := year + (n100 * 100 + n4 * 4 + n1) in
  if (n1 =? 4) || (n100 =? 4) then (year - 1, 12, 31)
  else
    let leapyear := (n1 =? 3) && (negb (n4 =? 24) || (n100 =? 3)) in
    let month := Z.shiftr (n + 50) 5 in
    let preceding :=
      item _DAYS_BEFORE_MONTH month
      + (if (2 <? month) && leapyear then 1 else 0) in
    if n <? preceding then
      let month := month - 1 in
      let preceding :=
        preceding - (item _DAYS_IN_MONTH month
                     + (if (month =? 2) && leapyear then 1 else 0)) in
      (year, month, n - preceding + 1)
    else (year, month, n - preceding + 1).

Record date : Type := mkDate { year : Z; month : Z; day : Z }.

(** [datetime.date(year, month, day)]: the constructor checks its fields. *)
Definition new (y m d : Z) : result date :=
  if negb ((MINYEAR <=? y) && (y <=? MAXYEAR)) then
    Raise (ValueError (u "year " ++ Str.of_Z y ++ u " is out of range"))
  else if negb ((1 <=? m) && (m <=? 12)) then
    Raise (ValueError (u "month must be in 1..12"))
  else if negb ((1 <=? d) && (d <=? _days_in_month y m)) then
    Raise (ValueError (u "day is out of range for month"))
  else Ok (mkDate y m d).

Definition toordinal (d : date) : Z := _ymd2ord (year d) (month d) (day d).

Definition fromordinal (n : Z) : result date :=
  let '(y, m, d) := _ord2ymd n in new y m d.

(** [a <= b]: the fields compared as a tuple. *)
Definition le (a b : date) : bool :=
  (year a <? year b)
  || ((year a =? year b)
      && ((month a <? month b)
          || ((month a =? month b) && (day a <=? day b)))).

(** [(a - b).days]. *)
Definition sub_days (a b : date) : Z := toordinal a - toordinal b.

(** [d + datetime.timedelta(days=n)]. *)
Definition add_days (d : date) (n : Z) : result date :=
  let o := toordinal d + n in
  if (0 <? o) && (o <=? _MAXORDINAL) then fromordinal o
  else Raise (OverflowError (u "date value out of range")).

(** A date object as the constructor can build it. *)
Definition valid (d : date) : Prop :=
  MINYEAR <= year d <= MAXYEAR /\ 1 <= month d <= 12
  /\ 1 <= day d <= _days_in_month (year d) (month d).

End datetime.

(* ================================================================= *)
(** ** [difflib.get_close_matches] *)

(** [SequenceMatcher] is used with [isjunk=None] and [autojunk=True], on
    sequence [a] (a candidate) and sequence [b] (the word).  Indices and
    sizes are naturals.  A ratio [2.0 * matches / length] is kept as the
    exact rational: both operands are below [2^53], the division is
    correctly rounded, and two different such fractions of string lengths
    are further apart than one unit in the last place, so comparing the
    rationals orders them as comparing the floats does. *)

Module difflib.

Definition _calculate_ratio (matches length : nat) : Q :=
  match length with
  | O => 1%Q
  | S _ => Qmake (2 * Z.of_nat matches) (Pos.of_nat length)
  end.

Definition count (elt : char) (s : pystr) : nat :=
  List.length (filter (Z.eqb elt) s).

(** [__chain_b]: with [autojunk], an element of a [b] of 200 or more
    elements that occurs more than [len(b) // 100 + 1] times is "popular"
    and is removed from the index [b2j]. *)
Definition bpopular (b : pystr) (elt : char) : bool :=
  let n := List.length b in
  (200 <=? n)%nat && (Nat.div n 100 + 1 <? count elt b)%nat.

(** [b2j.get(elt, [])]: the indices of [elt] in [b], increasing. *)
Definition b2j (b : pystr) (elt : char) : list nat :=
  if bpopular b elt then []
  else filter (fun j => nth j b (-1) =? elt) (seq 0 (List.length b)).

(** The dictionary [j2len], as an association list. *)
Fixpoint j2len_get (d : list (nat * nat)) (j : nat) : nat :=
  match d with
  | [] => O
  | (j', k) :: d' => if (j' =? j)%nat then k else j2len_get d' j
  end.

Definition best := (nat * nat * nat)%type.

(** The loop [for j in b2j.get(a[i], nothing)] of [find_longest_match]. *)
Fixpoint scan_js (js : list nat) (i blo bhi : nat) (j2len newj2len : list (nat * nat))
    (bst : best) : list (nat * nat) * best :=
  match js with
  | [] => (newj2len, bst)
  | j :: js' =>
      if (j <? blo)%nat then scan_js js' i blo bhi j2len newj2len bst
      else if (bhi <=? j)%nat then (newj2len, bst)
      else
        let k := (match j with O => O | S j' => j2len_get j2len j' end + 1)%nat in
        let '(_, _, bestsize) := bst in
        let bst' := if (bestsize <? k)%nat then ((i + 1 - k)%nat, (j + 1 - k)%nat, k) else bst in
        scan_js js' i blo bhi j2len ((j, k) :: newj2len) bst'
  end.

(** The loop [for i in range(alo, ahi)]. *)
Fixpoint scan_is (a b : pystr) (is_ : list nat) (blo bhi : nat)
    (j2len : list (nat * nat)) (bst : best) : best :=
  match is_ with
  | [] => bst
  | i :: is' =>
      let '(newj2len, bst') :=
        scan_js (b2j b (nth i a (-1))) i blo bhi j2len [] bst in
      scan_is a b is' blo bhi newj2len bst'
  end.

(** The first [while]: extend the match to the left over equal elements. *)
Fixpoint extend_left (a b : pystr) (alo blo : nat) (fuel : nat) (bst : best) : best :=
  match fuel with
  | O => bst
  | S fuel' =>
      let '(besti, bestj, bestsize) := bst in
      if (alo <? besti)%nat && (blo <? bestj)%nat
         && (nth (besti - 1) a (-1) =? nth (bestj - 1) b (-2))
      then extend_left a b alo blo fuel' ((besti - 1)%nat, (bestj - 1)%nat, S bestsize)
      else bst
  end.

(** The second [while]: extend the match to the right. *)
Fixpoint extend_right (a b : pystr) (ahi bhi : nat) (fuel : nat) (bst : best) : best :=
  match fuel with
  | O => bst
  | S fuel' =>
      let '(besti, bestj, bestsize) := bst in
      if (besti + bestsize <? ahi)%nat && (bestj + bestsize <? bhi)%nat
         && (nth (besti + bestsize) a (-1) =? nth (bestj + bestsize) b (-2))
      then extend_right a b ahi bhi fuel' (besti, bestj, S bestsize)
      else bst
  end.

(** [find_longest_match(alo, ahi, blo, bhi)].  The set [bjunk] is empty, so
    the two loops that extend over junk never run; each of the two loops
    kept steps at most [len(a)] times. *)
Definition find_longest_match (a b : pystr) (alo ahi blo bhi : nat) : best :=
  let bst := scan_is a b (seq alo (ahi - alo)) blo bhi [] (alo, blo, O) in
  let bst := extend_left a b alo blo (List.length a) bst in
  extend_right a b ahi bhi (List.length a) bst.

(** [get_matching_blocks], in the recursive form its comment describes:
    the block found in a region, then the regions left and right of it.
    Each region is strictly inside its parent's [a]-range, so [len(a)]
    levels are enough.  The final collapsing of adjacent blocks and the
    sentinel block do not change the sum of the sizes and are left out. *)
Fixpoint blocks (fuel : nat) (a b : pystr) (alo ahi blo bhi : nat) : list best :=
  match fuel with
  | O => []
  | S fuel' =>
      let '(i, j, k) := find_longest_match a b alo ahi blo bhi in
      match k with
      | O => []
      | S _ =>
          (if (alo <? i)%nat && (blo <? j)%nat
           then blocks fuel' a b alo i blo j else [])
          ++ [(i, j, k)]
          ++ (if (i + k <? ahi)%nat && (j + k <? bhi)%nat
              then blocks fuel' a b (i + k) ahi (j + k) bhi else [])
      end
  end.

Definition get_matching_blocks (a b : pystr) : list best :=
  blocks (List.length a) a b 0 (List.length a) 0 (List.length b).

Definition ratio (a b : pystr) : Q :=
  let matches := list_sum (map (fun t : best => snd t) (get_matching_blocks a b)) in
  _calculate_ratio matches (List.length a + List.length b).

(** [quick_ratio]: the size of the multiset intersection.  [avail] is the
    dictionary of the counts still available. *)
Fixpoint avail_get (avail : list (char * Z)) (elt : char) : option Z :=
  match avail with
  | [] => None
  | (e, n) :: avail' => if e =? elt then Some n else avail_get avail' elt
  end.

Fixpoint quick_matches (a b : pystr) (avail : list (char * Z)) (matches : nat) : nat :=
  match a with
  | [] => matches
  | elt :: a' =>
      let numb := match avail_get avail elt with
                  | Some n => n
                  | None => Z.of_nat (count elt b)
                  end in
      quick_matches a' b ((elt, numb - 1) :: avail)
        (if 0 <? numb then S matches else matches)
  end.

Definition quick_ratio (a b : pystr) : Q :=
  _calculate_ratio (quick_matches a b [] 0) (List.length a + List.length b).

Definition real_quick_ratio (a b : pystr) : Q :=
  let la := List.length a in
  let lb := List.length b in
  _calculate_ratio (Nat.min la lb) (la + lb).

(** Tuples [(score, x)] compared as Python compares tuples. *)
Fixpoint str_ltb (x y : pystr) : bool :=
  match x, y with
  | [], [] => false
  | [], _ :: _ => true
  | _ :: _, [] => false
  | c :: x', d :: y' => (c <? d) || ((c =? d) && str_ltb x' y')
  end.

Definition scored_ltb (p q : Q * pystr) : bool :=
  match Qcompare (fst p) (fst q) with
  | Lt => true
  | Gt => false
  | Eq => str_ltb (snd p) (snd q)
  end.

(** [heapq.nlargest(n, result)], that is [sorted(result, reverse=True)[:n]]. *)
Fixpoint insert_desc (p : Q * pystr) (l : list (Q * pystr)) : list (Q * pystr) :=
  match l with
  | [] => [p]
  | q :: l' => if scored_ltb p q then q :: insert_desc p l' else p :: l
  end.

Definition _nlargest (n : nat) (l : list (Q * pystr)) : list (Q * pystr) :=
  firstn n (fold_right insert_desc [] l).

Definition close_enough (word : pystr) (cutoff : Q) (x : pystr) : bool :=
  Qle_bool cutoff (real_quick_ratio x word)
  && Qle_bool cutoff (quick_ratio x word)
  && Qle_bool cutoff (ratio x word).

Definition get_close_matches (word : pystr) (possibilities : list pystr)
    (n : nat) (cutoff : Q) : list pystr :=
  let result :=
    map (fun x => (ratio x word, x))
        (filter (close_enough word cutoff) possibilities) in
  map snd (_nlargest n result).

End difflib.

(* ================================================================= *)
(** ** [bla_bla_bla.py] *)

(** A Python [dict] with string keys: an association list in insertion
    order; assigning to a key that is present replaces its value in place. *)
Fixpoint dict_get {V} (d : list (pystr * V)) (k : pystr) : option V :=
  match d with
  | [] => None
  | (k', v) :: d' => if Str.eqb k' k then Some v else dict_get d' k
  end.

Fixpoint dict_set {V} (d : list (pystr * V)) (k : pystr) (v : V) : list (pystr * V) :=
  match d with
  | [] => [(k, v)]
  | (k', v') :: d' =>
      if Str.eqb k' k then (k', v) :: d' else (k', v') :: dict_set d' k v
  end.

Definition keys {V} (d : list (pystr * V)) : list pystr := map fst d.

(** [d[k]]. *)
Definition dict_item {V} (d : list (pystr * V)) (k : pystr) : result V :=
  match dict_get d k with
  | Some v => Ok v
  | None => Raise (KeyError k)
  end.

Definition nepali_to_english_dates_conversion : list (pystr * (Z * Z)) :=
  [ (u "Baisakh", (4, 14));
    (u "Jestha", (5, 15));
    (u "Ashad", (6, 15));
    (u "Shrawan", (7, 16));
    (u "Bhadra", (8, 17));
    (u "Ashwin", (9, 17));
    (u "Kartik", (10, 18));
    (u "Mangsir", (11, 17));
    (u "Poush", (12, 16));
    (u "Magh", (1, 15));
    (u "Falgun", (2, 14));
    (u "Chaitra", (3, 15)) ].

Definition aliases : list (pystr * pystr) :=
  [ (u "asoj", u "Ashwin");
    (u "ashoj", u "Ashwin");
    (u "aswin", u "Ashwin");
    (u "baishakh", u "Baisakh");
    (u "baishak", u "Baisakh");
    (u "baisakh", u "Baisakh") ].

(** A value of a data-frame cell: the float NaN of a missing entry, a
    string, or another scalar, kept with its [str()]. *)
Inductive cell : Type :=
| NaN
| Str (s : pystr)
| Obj (repr : pystr).

Definition notna (c : cell) : bool :=
  match c with NaN => false | _ => true end.

(** [f"{c}"]. *)
Definition cell_str (c : cell) : pystr :=
  match c with
  | NaN => u "nan"
  | Str s => s
  | Obj repr => repr
  end.

Inductive column : Type := High_Hill_Sowing | Mid_Hill_Sowing | Terai_Bensi_Sowing.

Record row : Type := mkRow {
  Crop : cell;
  Variety : cell;
  sowing : column -> cell
}.

(** [re.sub(r"[—-−–]", "–", s)].  The pattern of the
    source is a character class holding the em-dash, a hyphen, the minus
    sign and the en-dash in this order; [re] reads the hyphen between two
    characters of a class as a range, so the class is the range
    U+2014..U+2212 together with U+2013. *)
Definition in_dash_class (c : char) : bool :=
  ((Str.EM_DASH <=? c) && (c <=? Str.MINUS_SIGN)) || (c =? Str.EN_DASH).

Definition sub_dashes (s : pystr) : pystr :=
  map (fun c => if in_dash_class c then Str.EN_DASH else c) s.

Section AgriFarm.

Variable unicode_lower : char -> pystr.

(** [s.lower()]. *)
Definition lower : pystr -> pystr := Str.lower unicode_lower.

Definition _normalize_nepali_month (name : pystr) : result pystr :=
  match name with
  | [] => Raise (ValueError (u "Empty month name"))
  | _ :: _ =>
      let clean := Str.strip name in
      match find (fun key => Str.eqb (lower clean) (lower key))
                 (keys nepali_to_english_dates_conversion) with
      | Some key => Ok key
      | None =>
          let low := lower clean in
          match dict_get aliases low with
          | Some month => Ok month
          | None =>
              let keys := keys nepali_to_english_dates_conversion in
              let matches := difflib.get_close_matches clean keys 1 (1 # 2) in
              match matches with
              | m :: _ => Ok m
              | [] =>
                  match find (fun key => Str.startswith (lower key) (firstn 3 low)) keys with
                  | Some key => Ok key
                  | None =>
                      Raise (ValueError
                               (u "Unrecognized Nepali month name: '" ++ name ++ u "'"))
                  end
              end
          end
      end
  end.

(** The sentinel test of [get_nepali_sowing_dates]. *)
Definition not_applicable (low : pystr) : bool :=
  Str.contains (u "not recommend") low
  || existsb (Str.eqb low) [u "n/a"; u "na"; u "none"; u "not recommended"].

(** Lines 86-112: the anchors of the two months, the two candidate windows
    and the choice between them. *)
Definition sowing_window (today : datetime.date)
    (start_month_nep_key end_month_nep_key : pystr)
    : result (datetime.date * datetime.date) :=
  '(start_month_eng, start_day) <-
     dict_item nepali_to_english_dates_conversion start_month_nep_key ;;
  '(end_month_eng, end_day) <-
     dict_item nepali_to_english_dates_conversion end_month_nep_key ;;
  let current_year := datetime.year today in
  let crosses_year := end_month_eng <? start_month_eng in
  start1 <- datetime.new current_year start_month_eng start_day ;;
  let end1_year := if crosses_year then current_year + 1 else current_year in
  end1 <- datetime.new end1_year end_month_eng end_day ;;
  let start2_year := current_year - 1 in
  start2 <- datetime.new start2_year start_month_eng start_day ;;
  let end2_year := if crosses_year then current_year else current_year - 1 in
  end2 <- datetime.new end2_year end_month_eng end_day ;;
  if datetime.le start1 today && datetime.le today end1 then Ok (start1, end1)
  else if datetime.le start2 today && datetime.le today end2 then Ok (start2, end2)
  else Ok (start1, end1).

(** Lines 114-115: every day from [start_date] to [end_date]. *)
Definition enumerate_window (w : datetime.date * datetime.date)
    : result (list datetime.date) :=
  let '(start_date, end_date) := w in
  let delta := datetime.sub_days end_date start_date in
  comprehension (fun i => datetime.add_days start_date i) (range (delta + 1)).

Definition get_nepali_sowing_dates (today : datetime.date) (nep_range : cell)
    : result (list datetime.date) :=
  match nep_range with
  | Str ((_ :: _) as nep_range) =>
      let s := sub_dashes (Str.strip nep_range) in
      let low := lower s in
      if not_applicable low then Ok []
      else
        let months := Str.split Str.EN_DASH s in
        if (List.length months <? 2)%nat then Ok []
        else
          let start_month_nep := Str.strip (nth 0 months []) in
          let end_month_nep := Str.strip (nth 0 (Str.split Str.LPAREN (nth 1 months [])) []) in
          start_month_nep_key <- _normalize_nepali_month start_month_nep ;;
          end_month_nep_key <- _normalize_nepali_month end_month_nep ;;
          w <- sowing_window today start_month_nep_key end_month_nep_key ;;
          enumerate_window w
  | _ => Ok []
  end.

(** The data frame read from [clean.csv], row by row. *)
Variable df : list row.

(** The loop of [get_crops_for_place] over the rows left by the filter.
    The [k]-th call of the resolver reads the clock as [clock k]. *)
Fixpoint crops_loop (clock : nat -> datetime.date) (k : nat) (col : column)
    (crops : list row) (result : list (pystr * list datetime.date))
    : option (list (pystr * list datetime.date)) * option pystr :=
  match crops with
  | [] => (Some result, None)
  | row :: crops' =>
      let sowing_range := sowing row col in
      match get_nepali_sowing_dates (clock k) sowing_range with
      | Raise e =>
          (None,
           Some (u "Error parsing sowing range '" ++ cell_str sowing_range
                 ++ u "': " ++ exn_str e))
      | Ok dates =>
          crops_loop clock (S k) col crops'
            (dict_set result
               (cell_str (Crop row) ++ u " - " ++ cell_str (Variety row)) dates)
      end
  end.

(** The column chosen from the lower-cased place name. *)
Definition place_column (place_name : pystr) : option column :=
  if Str.contains (u "high") place_name then Some High_Hill_Sowing
  else if Str.contains (u "mid") place_name then Some Mid_Hill_Sowing
  else if Str.contains (u "terai") place_name || Str.contains (u "bensi") place_name
  then Some Terai_Bensi_Sowing
  else None.

Definition get_crops_for_place (clock : nat -> datetime.date) (place_name : pystr)
    : option (list (pystr * list datetime.date)) * option pystr :=
  let place_name := lower place_name in
  match place_column place_name with
  | None => (None, Some (u "Place not recognized"))
  | Some col =>
      let crops := filter (fun r => notna (sowing r col)) df in
      crops_loop clock 0 col crops []
  end.

End AgriFarm.

(** The lowercase table restricted to code points that have no lowercase
    mapping; it agrees with the Unicode table on every string whose
    characters outside ASCII and the dashes are caseless. *)
Definition caseless : char -> pystr := fun c => [c].

Definition ymd (y m d : Z) : datetime.date := datetime.mkDate y m d.

(* ================================================================= *)
(** ** Names for the intermediate values of the resolver *)

(** The two month tokens [start_month_nep] and [end_month_nep] that
    [get_nepali_sowing_dates] extracts (lines 64-81), or [None] on each of
    the paths that return the empty list before. *)
Definition range_tokens (unicode_lower : char -> pystr) (nep_range : cell)
    : option (pystr * pystr) :=
  match nep_range with
  | Str ((_ :: _) as nep_range) =>
      let s := sub_dashes (Str.strip nep_range) in
      if not_applicable (lower unicode_lower s) then None
      else
        let months := Str.split Str.EN_DASH s in
        if (List.length months <? 2)%nat then None
        else Some (Str.strip (nth 0 months []),
                   Str.strip (nth 0 (Str.split Str.LPAREN (nth 1 months [])) []))
  | _ => None
  end.

(** [crosses_year] for two anchors. *)
Definition crosses_year (start_anchor end_anchor : Z * Z) : bool :=
  fst end_anchor <? fst start_anchor.

(** Window A, [(start1, end1)], for the year [current_year]. *)
Definition window_A (current_year : Z) (start_anchor end_anchor : Z * Z)
    : datetime.date * datetime.date :=
  (ymd current_year (fst start_anchor) (snd start_anchor),
   ymd (if crosses_year start_anchor end_anchor then current_year + 1 else current_year)
       (fst end_anchor) (snd end_anchor)).

(** Window B, [(start2, end2)]. *)
Definition window_B (current_year : Z) (start_anchor end_anchor : Z * Z)
    : datetime.date * datetime.date :=
  (ymd (current_year - 1) (fst start_anchor) (snd start_anchor),
   ymd (if crosses_year start_anchor end_anchor then current_year else current_year - 1)
       (fst end_anchor) (snd end_anchor)).

(** [start <= today <= end]. *)
Definition in_window (today : datetime.date) (w : datetime.date * datetime.date) : bool :=
  datetime.le (fst w) today && datetime.le today (snd w).

(** The date with ordinal [n]. *)
Definition date_of_ordinal (n : Z) : datetime.date :=
  let '(y, m, d) := datetime._ord2ymd n in ymd y m d.

(** The label [f"{row['Crop']} - {row['Variety']}"] of a row. *)
Definition label (r : row) : pystr :=
  cell_str (Crop r) ++ u " - " ++ cell_str (Variety r).

(** The message returned for a row whose range raised [e]. *)
Definition error_message (r : row) (col : column) (e : exn) : pystr :=
  u "Error parsing sowing range '" ++ cell_str (sowing r col) ++ u "': " ++ exn_str e.

(** The two exceptions of [_normalize_nepali_month]. *)
Definition EmptyInput : exn := ValueError (u "Empty month name").
Definition UnrecognizedMonth (name : pystr) : exn :=
  ValueError (u "Unrecognized Nepali month name: '" ++ name ++ u "'").

(** The month-table checks the proofs rely on, as boolean tests. *)
Definition anchor_of (k : pystr) : Z * Z :=
  match dict_get nepali_to_english_dates_conversion k with
  | Some a => a
  | None => (0, 0)
  end.

Definition anchor_ok (k : pystr) : bool :=
  match dict_get nepali_to_english_dates_conversion k with
  | Some (m, d) => (1 <=? m) && (m <=? 12) && (1 <=? d) && (d <=? 28)
  | None => false
  end.

Definition anchors_ordered (k1 k2 : pystr) : bool :=
  let '(m1, d1) := anchor_of k1 in
  let '(m2, d2) := anchor_of k2 in
  (m2 <? m1) || (m1 <? m2) || ((m1 =? m2) && (d1 <=? d2)).

(* ================================================================= *)
(** ** Definitions used to state the facts about the calendar *)

Module calendar.
Import datetime.

(** The month and day that [_ord2ymd] computes from the index [n] of a day
    in its year. *)
Definition month_day (n : Z) (leapyear : bool) : Z * Z :=
  let month := Z.shiftr (n + 50) 5 in
  let preceding :=
    item _DAYS_BEFORE_MONTH month
    + (if (2 <? month) && leapyear then 1 else 0) in
  if n <? preceding then
    let month := month - 1 in
    let preceding :=
      preceding - (item _DAYS_IN_MONTH month
                   + (if (month =? 2) && leapyear then 1 else 0)) in
    (month, n - preceding + 1)
  else (month, n - preceding + 1).

Definition dim (leap : bool) (m : Z) : Z :=
  if (m =? 2) && leap then 29 else item _DAYS_IN_MONTH m.

Definition dbm (leap : bool) (m : Z) : Z :=
  item _DAYS_BEFORE_MONTH m + (if (2 <? m) && leap then 1 else 0).

Definition month_day_ok (leap : bool) (n : Z) : bool :=
  let '(m, d) := month_day n leap in
  (1 <=? m) && (m <=? 12) && (1 <=? d) && (d <=? dim leap m)
  && (dbm leap m + d =? n + 1).

Definition months_ok (leap : bool) : bool :=
  forallb (fun m =>
             (0 <=? dbm leap m) && (28 <=? dim leap m) && (dim leap m <=? 31)
             && (dbm leap m + dim leap m
                 =? (if m =? 12 then 365 + (if leap then 1 else 0)
                     else dbm leap (m + 1))))
          (map (Z.add 1) (range 12)).

(** The date fields without the bound on the year. *)
Definition fields_ok (y m d : Z) : Prop :=
  1 <= m <= 12 /\ 1 <= d <= _days_in_month y m.

End calendar.

(** The days of a window, from its start to its end. *)
Definition days (start_date end_date : datetime.date) : list datetime.date :=
  map (fun i => date_of_ordinal (datetime.toordinal start_date + i))
      (range (datetime.sub_days end_date start_date + 1)).

(** The choice among the candidate windows. *)
Definition selected (today : datetime.date) (a1 a2 : Z * Z)
    : datetime.date * datetime.date :=
  let A := window_A (datetime.year today) a1 a2 in
  let B := window_B (datetime.year today) a1 a2 in
  if in_window today A then A else if in_window today B then B else A.

(** The first strategy of the normalizer: the exact, case-insensitive
    match of the trimmed token against the keys of the table. *)
Definition exact_match (unicode_lower : char -> pystr) (name : pystr) : option pystr :=
  find (fun key => Str.eqb (lower unicode_lower (Str.strip name))
                           (lower unicode_lower key))
       (keys nepali_to_english_dates_conversion).

(** A parseable range: both tokens are extracted and normalized. *)
Definition parses (unicode_lower : char -> pystr) (nep_range : cell) (k1 k2 : pystr) : Prop :=
  exists t1 t2,
    range_tokens unicode_lower nep_range = Some (t1, t2)
    /\ _normalize_nepali_month unicode_lower t1 = Ok k1
    /\ _normalize_nepali_month unicode_lower t2 = Ok k2.

(** Two month names around an en-dash. *)
Definition en_dash_range (a b : string) : pystr := u a ++ [Str.EN_DASH] ++ u b.


(* ================================================================= *)
(** ** Sample inputs *)

(** A data frame of three crops whose lowland column is filled in; the
    range of the second one names no month. *)
Definition sample_row (crop variety : string) (lowland : pystr) : row :=
  mkRow (Str (u crop)) (Str (u variety))
        (fun col => match col with
                    | Terai_Bensi_Sowing => Str lowland
                    | _ => NaN
                    end).

Definition wheat : row := sample_row "Wheat" "WK 1204" (en_dash_range "Kartik" "Mangsir").
Definition rice : row := sample_row "Rice" "Khumal 4" (en_dash_range "Xyzzy" "Jestha").
Definition maize : row := sample_row "Maize" "Arun 2" (en_dash_range "Baisakh" "Jestha").

Definition sample_df : list row := [wheat; rice; maize].
Definition clean_df : list row := [wheat; maize].

(** A clock that stays on 2024-05-01. *)
Definition may_day : nat -> datetime.date := fun _ => ymd 2024 5 1.

(* ================================================================= *)
(** ** Definitions for the further properties *)

(** The four strategies of [_normalize_nepali_month] on the trimmed token
    (lines 31-57): exact match, alias, close match, prefix. *)
Definition strategies (unicode_lower : char -> pystr) (clean : pystr) : option pystr :=
  let keys := keys nepali_to_english_dates_conversion in
  let low := lower unicode_lower clean in
  match find (fun key => Str.eqb low (lower unicode_lower key)) keys with
  | Some key => Some key
  | None =>
      match dict_get aliases low with
      | Some month => Some month
      | None =>
          match difflib.get_close_matches clean keys 1 (1 # 2) with
          | m :: _ => Some m
          | [] => find (fun key => Str.startswith (lower unicode_lower key) (firstn 3 low)) keys
          end
      end
  end.

(** Two characters that the resolver cannot tell apart: the same
    character, or two characters of the dash class that [strip] keeps. *)
Definition same_separator (c c' : char) : Prop :=
  c = c'
  \/ (in_dash_class c = true /\ in_dash_class c' = true
      /\ Str.isspace c = false /\ Str.isspace c' = false).

(** A character of a keyword in either ASCII letter case: [p] itself or
    the capital letter that lowers to [p]. *)
Definition ascii_case_variant (c p : char) : Prop :=
  c = p \/ (65 <= c <= 90 /\ p = c + 32).

(** A lower-case ASCII keyword without whitespace at either end. *)
Definition plain_keyword (kw : pystr) : bool :=
  forallb (fun p => (p <? 128) && negb ((65 <=? p) && (p <=? 90))) kw
  && match kw with
     | [] => false
     | p :: _ => negb (Str.isspace p) && negb (Str.isspace (last kw 0))
     end.

(** The message of [datetime.date] for a year outside [MINYEAR..MAXYEAR]. *)
Definition year_out_of_range (y : Z) : exn :=
  ValueError (u "year " ++ Str.of_Z y ++ u " is out of range").

(** The length of the year-crossing window of two anchors, checked for
    both leap flags of the two years. *)
Definition crossing_fits (k1 k2 : pystr) : bool :=
  let '(m1, d1) := anchor_of k1 in
  let '(m2, d2) := anchor_of k2 in
  negb (m2 <? m1)
  || forallb (fun leap1 : bool =>
                forallb (fun leap2 : bool =>
                           calendar.dbm leap2 m2 + d2 + (if leap1 then 1 else 0)
                           <=? calendar.dbm leap1 m1 + d1)
                        [false; true])
             [false; true].

(* ================================================================= *)
(** ** [forgui.py] *)

Module forgui.

(** ["%0<width>d"] for a number that is not negative. *)
Definition zero_pad (width : nat) (n : Z) : pystr :=
  let s := Str.of_Z n in
  repeat 48 (width - List.length s) ++ s.

(** [str(d)] for a date, that is [d.isoformat()]. *)
Definition date_str (d : datetime.date) : pystr :=
  zero_pad 4 (datetime.year d) ++ u "-" ++ zero_pad 2 (datetime.month d)
  ++ u "-" ++ zero_pad 2 (datetime.day d).

(** The two widgets the callback uses: the text typed in [entry] and the
    content of [result_text]. *)
Record widgets : Type := mkWidgets { entry : pystr; result_text : pystr }.

(** The callback returns, or [crops.items()] is called on [None]. *)
Inductive outcome : Type :=
| Returned (w : widgets)
| AttributeError_None.

(** The truth value of [error] in [if error:]. *)
Definition truthy (error : option pystr) : bool :=
  match error with
  | Some (_ :: _) => true
  | _ => false
  end.

Definition NEWLINE : char := 10.

(** The text inserted for one item of [crops.items()]. *)
Definition crop_block (item : pystr * list datetime.date) : pystr :=
  let '(crop, dates) := item in
  crop ++ [NEWLINE]
  ++ flat_map (fun d => u "  " ++ date_str d ++ [NEWLINE]) dates
  ++ [NEWLINE].

Section Callback.

Variable unicode_lower : char -> pystr.
Variable df : list row.
Variable clock : nat -> datetime.date.

(** [result_text.delete("1.0", END)] empties the widget and each
    [insert(END, s)] appends [s]: the new content is the concatenation of
    the inserted strings. *)
Definition enter_yourinfo (w : widgets) : outcome :=
  let place := entry w in
  let '(crops, error) := get_crops_for_place unicode_lower df clock place in
  if truthy error then
    match error with
    | Some error => Returned (mkWidgets (entry w) error)
    | None => Returned w
    end
  else
    match crops with
    | None => AttributeError_None
    | Some crops => Returned (mkWidgets (entry w) (flat_map crop_block crops))
    end.

End Callback.

End forgui.

(* ================================================================= *)
(** ** Sample inputs for the further properties *)

(** A second row for the wheat variety of [wheat], with another range. *)
Definition wheat_again : row :=
  sample_row "Wheat" "WK 1204" (en_dash_range "Baisakh" "Jestha").

Definition repeated_df : list row := [wheat; maize; wheat_again].

Definition ELLIPSIS : char := 8230.  (* U+2026, inside the dash class *)

(* ================================================================= *)
(** * Facts about the calendar arithmetic *)

Module datetime_facts.
Import datetime calendar.

Lemma In_range n k : 0 <= n < k -> In n (range k).
Proof.
  intros H. unfold range. apply in_map_iff. exists (Z.to_nat n). split.
  - lia.
  - apply in_seq. lia.
Qed.

Lemma month_day_spec leap n :
  0 <= n < 365 ->
  forall m d, month_day n leap = (m, d) ->
  1 <= m <= 12 /\ 1 <= d <= dim leap m /\ dbm leap m + d = n + 1.
Proof.
  intros Hn m d E.
  assert (A : forallb (month_day_ok leap) (range 365) = true)
    by (destruct leap; vm_compute; reflexivity).
  rewrite forallb_forall in A. specialize (A n (In_range _ _ Hn)).
  unfold month_day_ok in A. rewrite E in A.
  repeat (apply andb_prop in A; destruct A as [A ?]). lia.
Qed.

Lemma months_spec leap m :
  1 <= m <= 12 ->
  0 <= dbm leap m /\ 28 <= dim leap m <= 31
  /\ dbm leap m + dim leap m
     = (if m =? 12 then 365 + (if leap then 1 else 0) else dbm leap (m + 1)).
Proof.
  intros Hm.
  assert (A : months_ok leap = true) by (destruct leap; vm_compute; reflexivity).
  unfold months_ok in A. rewrite forallb_forall in A.
  assert (I : In m (map (Z.add 1) (range 12))).
  { apply in_map_iff. exists (m - 1). split; [lia | apply In_range; lia]. }
  specialize (A m I).
  repeat (apply andb_prop in A; destruct A as [A ?]). lia.
Qed.

Lemma dbm_mono leap m m' :
  1 <= m -> m < m' -> m' <= 12 -> dbm leap m + dim leap m <= dbm leap m'.
Proof.
  intros H1 H2 H3.
  assert (G : forall k : nat, (1 <= Z.to_nat m + k)%nat -> Z.of_nat (Z.to_nat m + S k) <= 12 ->
              dbm leap m + dim leap m <= dbm leap (Z.of_nat (Z.to_nat m + S k))).
  { induction k as [|k IH]; intros Hk Hk'.
    - pose proof (months_spec leap m ltac:(lia)) as (_ & _ & E).
      replace (Z.of_nat (Z.to_nat m + 1)) with (m + 1) by lia.
      destruct (Z.eqb_spec m 12); lia.
    - pose proof (months_spec leap (Z.of_nat (Z.to_nat m + S k)) ltac:(lia)) as (_ & D & E).
      specialize (IH ltac:(lia) ltac:(lia)).
      replace (Z.of_nat (Z.to_nat m + S (S k))) with (Z.of_nat (Z.to_nat m + S k) + 1) by lia.
      destruct (Z.eqb_spec (Z.of_nat (Z.to_nat m + S k)) 12); lia. }
  specialize (G (Z.to_nat (m' - m - 1)) ltac:(lia)).
  replace (Z.of_nat (Z.to_nat m + S (Z.to_nat (m' - m - 1)))) with m' in G by lia.
  apply G. lia.
Qed.

Lemma days_in_month_dim y m : _days_in_month y m = dim (_is_leap y) m.
Proof. reflexivity. Qed.

Lemma days_before_month_dbm y m : _days_before_month y m = dbm (_is_leap y) m.
Proof. reflexivity. Qed.

Lemma days_before_year_succ y :
  _days_before_year (y + 1)
  = _days_before_year y + 365 + (if _is_leap y then 1 else 0).
Proof.
  unfold _days_before_year, _is_leap.
  replace (y + 1 - 1) with y by lia.
  destruct (Z.eqb_spec (y mod 4) 0), (Z.eqb_spec (y mod 100) 0),
    (Z.eqb_spec (y mod 400) 0); cbn [andb orb negb];
    Z.div_mod_to_equations; lia.
Qed.

Lemma days_before_year_mono y y' :
  y <= y' -> _days_before_year y <= _days_before_year y'.
Proof.
  intros H. unfold _days_before_year. Z.div_mod_to_equations. lia.
Qed.

(** A day of the year lies between 1 and the length of the year. *)
Lemma day_of_year_bounds leap m d :
  1 <= m <= 12 -> 1 <= d <= dim leap m ->
  1 <= dbm leap m + d <= 365 + (if leap then 1 else 0).
Proof.
  intros Hm Hd.
  pose proof (months_spec leap m Hm) as (A & B & E).
  destruct (Z.eqb_spec m 12) as [->|N].
  - lia.
  - pose proof (months_spec leap 12 ltac:(lia)) as (_ & _ & E12).
    pose proof (dbm_mono leap m 12 ltac:(lia) ltac:(lia) ltac:(lia)).
    change (12 =? 12) with true in E12. cbv beta iota in E12.
    pose proof (months_spec leap 12 ltac:(lia)) as (_ & D12 & _). lia.
Qed.

(** [_ymd2ord] is strictly increasing in the order of the tuples. *)
Lemma ymd2ord_year_lt y m d y' m' d' :
  fields_ok y m d -> fields_ok y' m' d' -> y < y' ->
  _ymd2ord y m d < _ymd2ord y' m' d'.
Proof.
  intros [Hm Hd] [Hm' Hd'] Hy. unfold _ymd2ord.
  rewrite days_in_month_dim in Hd, Hd'. rewrite !days_before_month_dbm.
  pose proof (day_of_year_bounds _ _ _ Hm Hd).
  pose proof (day_of_year_bounds _ _ _ Hm' Hd').
  pose proof (days_before_year_succ y).
  pose proof (days_before_year_mono (y + 1) y' ltac:(lia)). lia.
Qed.

Lemma ymd2ord_month_lt y m d m' d' :
  fields_ok y m d -> fields_ok y m' d' -> m < m' ->
  _ymd2ord y m d < _ymd2ord y m' d'.
Proof.
  intros [Hm Hd] [Hm' Hd'] Hlt. unfold _ymd2ord.
  rewrite days_in_month_dim in Hd, Hd'. rewrite !days_before_month_dbm.
  pose proof (dbm_mono (_is_leap y) m m' ltac:(lia) Hlt ltac:(lia)). lia.
Qed.

Lemma ymd2ord_inj y m d y' m' d' :
  fields_ok y m d -> fields_ok y' m' d' ->
  _ymd2ord y m d = _ymd2ord y' m' d' -> y = y' /\ m = m' /\ d = d'.
Proof.
  intros H H' E.
  destruct (Z.lt_trichotomy y y') as [L | [-> | L]].
  - pose proof (ymd2ord_year_lt _ _ _ _ _ _ H H' L). lia.
  - destruct (Z.lt_trichotomy m m') as [L | [-> | L]].
    + pose proof (ymd2ord_month_lt _ _ _ _ _ H H' L). lia.
    + unfold _ymd2ord in E. lia.
    + pose proof (ymd2ord_month_lt _ _ _ _ _ H' H L). lia.
  - pose proof (ymd2ord_year_lt _ _ _ _ _ _ H' H L). lia.
Qed.

Lemma ord2ymd_unfold n :
  _ord2ymd n =
  let n0 := n - 1 in
  let n400 := n0 / 146097 in
  let r400 := n0 mod 146097 in
  let n100 := r400 / 36524 in
  let r100 := r400 mod 36524 in
  let n4 := r100 / 1461 in
  let r4 := r100 mod 1461 in
  let n1 := r4 / 365 in
  let r1 := r4 mod 365 in
  let year := n400 * 400 + 1 + (n100 * 100 + n4 * 4 + n1) in
  if (n1 =? 4) || (n100 =? 4) then (year - 1, 12, 31)
  else
    let '(m, d) := month_day r1 ((n1 =? 3) && (negb (n4 =? 24) || (n100 =? 3))) in
    (year, m, d).
Proof.
  unfold _ord2ymd, month_day, _DI400Y, _DI100Y, _DI4Y. cbv zeta.
  destruct ((_ / 365 =? 4) || _); [reflexivity|].
  match goal with |- context [if ?c then _ else _] => destruct c end; reflexivity.
Qed.

(** [_ord2ymd] yields well-formed fields and [_ymd2ord] maps them back. *)
Lemma ymd2ord_ord2ymd n y m d :
  _ord2ymd n = (y, m, d) -> fields_ok y m d /\ _ymd2ord y m d = n.
Proof.
  rewrite ord2ymd_unfold. cbv zeta.
  set (n0 := n - 1).
  set (n400 := n0 / 146097). set (r400 := n0 mod 146097).
  set (n100 := r400 / 36524). set (r100 := r400 mod 36524).
  set (n4 := r100 / 1461). set (r4 := r100 mod 1461).
  set (n1 := r4 / 365). set (r1 := r4 mod 365).
  assert (E400 : n0 = 146097 * n400 + r400 /\ 0 <= r400 < 146097)
    by (subst n400 r400; Z.div_mod_to_equations; lia).
  assert (E100 : r400 = 36524 * n100 + r100 /\ 0 <= r100 < 36524)
    by (subst n100 r100; Z.div_mod_to_equations; lia).
  assert (E4 : r100 = 1461 * n4 + r4 /\ 0 <= r4 < 1461)
    by (subst n4 r4; Z.div_mod_to_equations; lia).
  assert (E1 : r4 = 365 * n1 + r1 /\ 0 <= r1 < 365)
    by (subst n1 r1; Z.div_mod_to_equations; lia).
  clearbody n400 r400 n100 r100 n4 r4 n1 r1.
  assert (B : 0 <= n100 <= 4 /\ 0 <= n4 <= 24 /\ 0 <= n1 <= 4) by lia.
  destruct (Z.eqb_spec n1 4) as [N1|N1]; cbn [orb].
  - (* the last day of a leap year that ends a four-year cycle *)
    intros [= <- <- <-]. unfold fields_ok, _ymd2ord, _days_in_month,
      _days_before_month, _days_before_year, _is_leap, item. cbn [nth Z.to_nat Pos.to_nat].
    change (12 =? 2) with false. change (2 <? 12) with true. cbn [andb].
    change (nth (Pos.to_nat 12) _DAYS_IN_MONTH 0) with 31.
    change (nth (Pos.to_nat 12) _DAYS_BEFORE_MONTH 0) with 334.
    set (Y := n400 * 400 + 1 + (n100 * 100 + n4 * 4 + n1) - 1).
    assert (L : Y mod 4 = 0 /\ (Y mod 100 <> 0 \/ Y mod 400 = 0))
      by (subst Y; Z.div_mod_to_equations; lia).
    destruct L as [L4 L100].
    rewrite (proj2 (Z.eqb_eq _ _) L4). cbn [andb].
    assert (Lb : negb (Y mod 100 =? 0) || (Y mod 400 =? 0) = true).
    { destruct L100 as [L|L].
      - apply Z.eqb_neq in L. rewrite L. reflexivity.
      - apply Z.eqb_eq in L. rewrite L. apply orb_true_r. }
    rewrite Lb. split; [lia|].
    subst Y. Z.div_mod_to_equations. lia.
  - destruct (Z.eqb_spec n100 4) as [N100|N100].
    + (* the last day of a 400-year cycle *)
      intros [= <- <- <-]. unfold fields_ok, _ymd2ord, _days_in_month,
        _days_before_month, _days_before_year, _is_leap, item.
      change (12 =? 2) with false. change (2 <? 12) with true. cbn [andb].
      change (nth (Z.to_nat 12) _DAYS_IN_MONTH 0) with 31.
      change (nth (Z.to_nat 12) _DAYS_BEFORE_MONTH 0) with 334.
      set (Y := n400 * 400 + 1 + (n100 * 100 + n4 * 4 + n1) - 1).
      assert (L : Y mod 4 = 0 /\ Y mod 400 = 0)
        by (subst Y; Z.div_mod_to_equations; lia).
      destruct L as [L4 L400].
      rewrite (proj2 (Z.eqb_eq _ _) L4), (proj2 (Z.eqb_eq _ _) L400).
      rewrite orb_true_r. cbn [andb]. split; [lia|].
      subst Y. Z.div_mod_to_equations. lia.
    + set (leapyear := (n1 =? 3) && (negb (n4 =? 24) || (n100 =? 3))).
      set (Y := n400 * 400 + 1 + (n100 * 100 + n4 * 4 + n1)).
      destruct (month_day r1 leapyear) as [m0 d0] eqn:MD.
      intros [= <- <- <-].
      assert (LY : _is_leap Y = leapyear).
      { unfold _is_leap, leapyear.
        destruct (Z.eqb_spec n1 3), (Z.eqb_spec n4 24), (Z.eqb_spec n100 3),
          (Z.eqb_spec (Y mod 4) 0), (Z.eqb_spec (Y mod 100) 0),
          (Z.eqb_spec (Y mod 400) 0); cbn [andb orb negb]; try reflexivity;
          exfalso; subst Y; Z.div_mod_to_equations; lia. }
      pose proof (month_day_spec leapyear r1 ltac:(lia) _ _ MD) as (Hm & Hd & He).
      unfold fields_ok, _ymd2ord.
      rewrite days_in_month_dim, days_before_month_dbm, LY.
      split; [lia|].
      unfold _days_before_year. subst Y. Z.div_mod_to_equations. lia.
Qed.

Lemma valid_fields d : valid d -> fields_ok (year d) (month d) (day d).
Proof. unfold valid, fields_ok. tauto. Qed.

Lemma new_valid y m d :
  valid (mkDate y m d) -> new y m d = Ok (mkDate y m d).
Proof.
  unfold valid, new, MINYEAR, MAXYEAR. cbn [year month day]. intros (Hy & Hm & Hd).
  replace ((1 <=? y) && (y <=? 9999)) with true by (symmetry; apply andb_true_intro; split; lia).
  replace ((1 <=? m) && (m <=? 12)) with true by (symmetry; apply andb_true_intro; split; lia).
  replace ((1 <=? d) && (d <=? _days_in_month y m)) with true
    by (symmetry; apply andb_true_intro; split; lia).
  reflexivity.
Qed.

Lemma new_inv y m d x : new y m d = Ok x -> x = mkDate y m d /\ valid x.
Proof.
  unfold new, valid, MINYEAR, MAXYEAR.
  destruct (Z.leb_spec 1 y), (Z.leb_spec y 9999); cbn [andb negb]; try discriminate.
  destruct (Z.leb_spec 1 m), (Z.leb_spec m 12); cbn [andb negb]; try discriminate.
  destruct (Z.leb_spec 1 d), (Z.leb_spec d (_days_in_month y m));
    cbn [andb negb]; try discriminate.
  intros [= <-]. cbn [year month day]. split; [reflexivity | lia].
Qed.

(** The ordinals of the date objects are exactly [1 .. _MAXORDINAL]. *)
Lemma toordinal_bounds d : valid d -> 1 <= toordinal d <= _MAXORDINAL.
Proof.
  intros (Hy & Hm & Hd). unfold toordinal, _ymd2ord, MINYEAR, MAXYEAR in *.
  rewrite days_in_month_dim in Hd. rewrite days_before_month_dbm.
  pose proof (day_of_year_bounds _ _ _ Hm Hd) as B.
  pose proof (days_before_year_mono 1 (year d) ltac:(lia)) as L.
  pose proof (days_before_year_succ (year d)) as S.
  pose proof (days_before_year_mono (year d + 1) 10000 ltac:(lia)) as U.
  change (_days_before_year 1) with 0 in L.
  change (_days_before_year 10000) with 3652059 in U.
  unfold _MAXORDINAL. lia.
Qed.

Lemma fromordinal_toordinal d : valid d -> fromordinal (toordinal d) = Ok d.
Proof.
  intros V. unfold fromordinal.
  destruct (_ord2ymd (toordinal d)) as [[y m] dd] eqn:E.
  apply ymd2ord_ord2ymd in E. destruct E as [F E].
  apply ymd2ord_inj in E; [|assumption|apply valid_fields; assumption].
  destruct E as (-> & -> & ->). destruct d as [y m dd]. cbn [year month day].
  apply new_valid. assumption.
Qed.

Lemma toordinal_fromordinal n :
  1 <= n <= _MAXORDINAL ->
  exists d, fromordinal n = Ok d /\ valid d /\ toordinal d = n.
Proof.
  intros Hn. unfold fromordinal.
  destruct (_ord2ymd n) as [[y m] dd] eqn:E.
  apply ymd2ord_ord2ymd in E. destruct E as [F E].
  assert (V : valid (mkDate y m dd)).
  { destruct F as [Hm Hd]. unfold valid, MINYEAR, MAXYEAR. cbn [year month day].
    split; [|tauto].
    unfold _ymd2ord in E. rewrite days_in_month_dim in Hd.
    rewrite days_before_month_dbm in E.
    pose proof (day_of_year_bounds _ _ _ Hm Hd) as B.
    pose proof (days_before_year_succ y) as S.
    unfold _MAXORDINAL in Hn. split.
    - destruct (Z.le_gt_cases 1 y) as [|L]; [assumption|].
      pose proof (days_before_year_mono (y + 1) 1 ltac:(lia)) as U.
      change (_days_before_year 1) with 0 in U. lia.
    - destruct (Z.le_gt_cases y 9999) as [|L]; [assumption|].
      pose proof (days_before_year_mono 10000 y ltac:(lia)) as U.
      change (_days_before_year 10000) with 3652059 in U. lia. }
  exists (mkDate y m dd). split; [apply new_valid; assumption|]. split; assumption.
Qed.

(** Comparing two dates as tuples is comparing their ordinals. *)
Lemma le_toordinal a b :
  valid a -> valid b -> (le a b = true <-> toordinal a <= toordinal b).
Proof.
  intros Va Vb. apply valid_fields in Va, Vb. unfold le, toordinal.
  destruct (Z.lt_trichotomy (year a) (year b)) as [L | [E | L]].
  - pose proof (ymd2ord_year_lt _ _ _ _ _ _ Va Vb L).
    replace (year a <? year b) with true by (symmetry; apply Z.ltb_lt; lia).
    cbn [orb]. split; [lia | reflexivity].
  - replace (year a <? year b) with false by (symmetry; apply Z.ltb_ge; lia).
    replace (year a =? year b) with true by (symmetry; apply Z.eqb_eq; lia).
    cbn [orb andb]. rewrite <- E in *.
    destruct (Z.lt_trichotomy (month a) (month b)) as [L | [E' | L]].
    + pose proof (ymd2ord_month_lt _ _ _ _ _ Va Vb L).
      replace (month a <? month b) with true by (symmetry; apply Z.ltb_lt; lia).
      cbn [orb]. split; [lia | reflexivity].
    + replace (month a <? month b) with false by (symmetry; apply Z.ltb_ge; lia).
      replace (month a =? month b) with true by (symmetry; apply Z.eqb_eq; lia).
      cbn [orb andb]. rewrite <- E'. unfold _ymd2ord. rewrite Z.leb_le. lia.
    + pose proof (ymd2ord_month_lt _ _ _ _ _ Vb Va L).
      replace (month a <? month b) with false by (symmetry; apply Z.ltb_ge; lia).
      replace (month a =? month b) with false by (symmetry; apply Z.eqb_neq; lia).
      cbn [orb andb]. split; [discriminate | lia].
  - pose proof (ymd2ord_year_lt _ _ _ _ _ _ Vb Va L).
    replace (year a <? year b) with false by (symmetry; apply Z.ltb_ge; lia).
    replace (year a =? year b) with false by (symmetry; apply Z.eqb_neq; lia).
    cbn [orb andb]. split; [discriminate | lia].
Qed.

End datetime_facts.

(* ================================================================= *)
(** * Facts about strings and dictionaries *)

Lemma str_eqb_eq a b : Str.eqb a b = true <-> a = b.
Proof.
  revert b. induction a as [|x a IH]; intros [|y b]; cbn; split;
    try reflexivity; try discriminate.
  - intros H. apply andb_prop in H. destruct H as [H1 H2].
    apply Z.eqb_eq in H1. apply IH in H2. congruence.
  - intros [= -> ->]. rewrite Z.eqb_refl. apply IH. reflexivity.
Qed.

Lemma str_eqb_refl a : Str.eqb a a = true.
Proof. apply str_eqb_eq. reflexivity. Qed.

Lemma lstrip_spaces ws s :
  forallb Str.isspace ws = true -> Str.lstrip (ws ++ s) = Str.lstrip s.
Proof.
  induction ws as [|c ws IH]; cbn; [reflexivity|].
  intros H. apply andb_prop in H. destruct H as [-> H]. apply IH, H.
Qed.

Lemma lstrip_all_spaces ws : forallb Str.isspace ws = true -> Str.lstrip ws = [].
Proof.
  intros H. rewrite <- (app_nil_r ws). rewrite lstrip_spaces by assumption. reflexivity.
Qed.

Lemma forallb_rev {A} (f : A -> bool) l : forallb f (rev l) = forallb f l.
Proof.
  induction l as [|x l IH]; cbn; [reflexivity|].
  rewrite forallb_app, IH. cbn. rewrite andb_true_r. apply andb_comm.
Qed.

(** A string of whitespace strips to the empty string. *)
Lemma strip_all_spaces ws : forallb Str.isspace ws = true -> Str.strip ws = [].
Proof.
  intros H. unfold Str.strip, Str.rstrip. rewrite (lstrip_all_spaces ws H).
  reflexivity.
Qed.

(** Whitespace around a string that neither starts nor ends with
    whitespace is what [strip] removes. *)
Lemma strip_surrounded ws1 ws2 s :
  forallb Str.isspace ws1 = true -> forallb Str.isspace ws2 = true ->
  Str.lstrip s = s -> Str.lstrip (rev s) = rev s ->
  s <> [] ->
  Str.strip (ws1 ++ s ++ ws2) = s.
Proof.
  intros H1 H2 L R N. unfold Str.strip, Str.rstrip.
  rewrite lstrip_spaces by assumption.
  assert (E : Str.lstrip (s ++ ws2) = s ++ ws2).
  { destruct s as [|c s]; [congruence|]. cbn in L |- *.
    destruct (Str.isspace c) eqn:Hc; [|reflexivity].
    exfalso. assert (Hl : (List.length (Str.lstrip s) <= List.length s)%nat).
    { clear. induction s as [|x s IH]; cbn; [lia|]. destruct (Str.isspace x); cbn; lia. }
    rewrite L in Hl. cbn in Hl. lia. }
  rewrite E, rev_app_distr, lstrip_spaces by (rewrite forallb_rev; assumption).
  rewrite R. apply rev_involutive.
Qed.

Lemma dict_get_In {V} (d : list (pystr * V)) k v :
  dict_get d k = Some v -> In (k, v) d.
Proof.
  induction d as [|[k' v'] d IH]; cbn; [discriminate|].
  destruct (Str.eqb k' k) eqn:E.
  - intros [= ->]. apply str_eqb_eq in E. subst. left. reflexivity.
  - intros H. right. apply IH, H.
Qed.

Lemma dict_get_set_same {V} (d : list (pystr * V)) k v :
  dict_get (dict_set d k v) k = Some v.
Proof.
  induction d as [|[k' v'] d IH]; cbn.
  - rewrite str_eqb_refl. reflexivity.
  - destruct (Str.eqb k' k) eqn:E; cbn; rewrite E; [reflexivity | apply IH].
Qed.

Lemma dict_get_set_other {V} (d : list (pystr * V)) k v k' :
  k <> k' -> dict_get (dict_set d k v) k' = dict_get d k'.
Proof.
  intros N. induction d as [|[k0 v0] d IH]; cbn.
  - destruct (Str.eqb k k') eqn:E; [apply str_eqb_eq in E; contradiction | reflexivity].
  - destruct (Str.eqb k0 k) eqn:E; cbn.
    + apply str_eqb_eq in E. subst k0.
      destruct (Str.eqb k k') eqn:E'; [apply str_eqb_eq in E'; contradiction | reflexivity].
    + rewrite IH. reflexivity.
Qed.

(** Assigning to a key keeps every key that was present. *)
Lemma dict_set_keeps {V} (d : list (pystr * V)) k v k' :
  dict_get d k' <> None -> dict_get (dict_set d k v) k' <> None.
Proof.
  intros H. destruct (list_eq_dec Z.eq_dec k k') as [->|N].
  - rewrite dict_get_set_same. discriminate.
  - rewrite dict_get_set_other by assumption. assumption.
Qed.

(* ================================================================= *)
(** * Facts about the month normalizer *)

Module difflib_facts.
Import difflib.

Lemma insert_desc_In p q l : In p (insert_desc q l) -> p = q \/ In p l.
Proof.
  induction l as [|r l IH]; cbn.
  - intros [<-|[]]. left. reflexivity.
  - destruct (scored_ltb q r); cbn.
    + intros [<-|H]; [right; left; reflexivity|].
      destruct (IH H) as [->|H']; [left; reflexivity | right; right; assumption].
    + intros [<-|H]; [left; reflexivity | right; assumption].
Qed.

Lemma sorted_In p l : In p (fold_right insert_desc [] l) -> In p l.
Proof.
  induction l as [|q l IH]; cbn; [tauto|].
  intros H. apply insert_desc_In in H. destruct H as [->|H]; [left; reflexivity|].
  right. apply IH, H.
Qed.

Lemma firstn_subset {A} n (l : list A) x : In x (firstn n l) -> In x l.
Proof.
  revert l. induction n as [|n IH]; intros [|y l]; cbn; try tauto.
  intros [->|H]; [left; reflexivity | right; apply IH, H].
Qed.

(** Every match is one of the possibilities. *)
Lemma get_close_matches_In word possibilities n cutoff x :
  In x (get_close_matches word possibilities n cutoff) -> In x possibilities.
Proof.
  unfold get_close_matches, _nlargest. intros H.
  apply in_map_iff in H. destruct H as ([score y] & <- & H). cbn.
  apply firstn_subset in H. apply sorted_In in H.
  apply in_map_iff in H. destruct H as (z & [= _ ->] & H).
  apply filter_In in H. apply H.
Qed.

End difflib_facts.

Section NormalizerFacts.

Variable unicode_lower : char -> pystr.

Lemma aliases_in_keys low month :
  dict_get aliases low = Some month ->
  In month (keys nepali_to_english_dates_conversion).
Proof.
  intros H. apply dict_get_In in H. unfold aliases in H. cbn [In] in H.
  repeat (destruct H as [H|H];
          [apply (f_equal snd) in H; cbn [snd] in H; subst month; unfold nepali_to_english_dates_conversion, keys;
           cbn [map fst In]; repeat first [left; reflexivity | right]|]).
  destruct H.
Qed.

(** The normalizer returns a key of the month table. *)
Lemma normalize_in_keys name key :
  _normalize_nepali_month unicode_lower name = Ok key ->
  In key (keys nepali_to_english_dates_conversion).
Proof.
  unfold _normalize_nepali_month. destruct name as [|c name]; [discriminate|].
  destruct (find _ _) eqn:F1.
  { intros [= <-]. apply find_some in F1. apply F1. }
  destruct (dict_get aliases _) eqn:A.
  { intros [= <-]. eapply aliases_in_keys, A. }
  destruct (difflib.get_close_matches _ _ _ _) as [|m ms] eqn:G.
  - clear F1.
    match goal with
    | |- context [find ?f ?l] => destruct (find f l) eqn:F2; [|discriminate]
    end.
    intros [= <-]. apply find_some in F2. apply F2.
  - intros [= <-]. eapply difflib_facts.get_close_matches_In.
    rewrite G. left. reflexivity.
Qed.

Lemma normalize_empty :
  _normalize_nepali_month unicode_lower [] = Raise EmptyInput.
Proof. reflexivity. Qed.

Lemma anchor_ok_keys key :
  In key (keys nepali_to_english_dates_conversion) -> anchor_ok key = true.
Proof.
  intros H.
  assert (A : forallb anchor_ok (keys nepali_to_english_dates_conversion) = true)
    by (vm_compute; reflexivity).
  rewrite forallb_forall in A. apply A, H.
Qed.

Lemma anchors_ordered_keys k1 k2 :
  In k1 (keys nepali_to_english_dates_conversion) ->
  In k2 (keys nepali_to_english_dates_conversion) ->
  anchors_ordered k1 k2 = true.
Proof.
  intros H1 H2.
  assert (A : forallb (fun a => forallb (anchors_ordered a)
                                   (keys nepali_to_english_dates_conversion))
                (keys nepali_to_english_dates_conversion) = true)
    by (vm_compute; reflexivity).
  rewrite forallb_forall in A. specialize (A k1 H1).
  rewrite forallb_forall in A. apply A, H2.
Qed.

End NormalizerFacts.

(* ================================================================= *)
(** * Facts about the windows and their enumeration *)

Section WindowFacts.
Import datetime calendar datetime_facts.

Variable unicode_lower : char -> pystr.

Lemma range_length n : List.length (range n) = Z.to_nat n.
Proof. unfold range. rewrite length_map, length_seq. reflexivity. Qed.

Lemma range_nth_error n i :
  (i < Z.to_nat n)%nat -> nth_error (range n) i = Some (Z.of_nat i).
Proof.
  intros H. unfold range. rewrite nth_error_map.
  rewrite (nth_error_nth' _ 0%nat) by (rewrite length_seq; assumption).
  rewrite seq_nth by assumption. reflexivity.
Qed.

Lemma range_In n x : In x (range n) -> 0 <= x < n.
Proof.
  unfold range. intros H. apply in_map_iff in H. destruct H as (k & <- & H).
  apply in_seq in H. lia.
Qed.

Lemma comprehension_map {A B} (f : A -> result B) (g : A -> B) l :
  (forall x, In x l -> f x = Ok (g x)) -> comprehension f l = Ok (map g l).
Proof.
  induction l as [|x l IH]; intros H; cbn; [reflexivity|].
  rewrite (H x) by (left; reflexivity). cbn.
  rewrite IH by (intros; apply H; right; assumption). reflexivity.
Qed.

(** The date of an ordinal in range is a date object with that ordinal. *)
Lemma date_of_ordinal_spec n :
  1 <= n <= _MAXORDINAL ->
  fromordinal n = Ok (date_of_ordinal n)
  /\ valid (date_of_ordinal n) /\ toordinal (date_of_ordinal n) = n.
Proof.
  intros Hn. destruct (toordinal_fromordinal n Hn) as (d & F & V & T).
  assert (E : date_of_ordinal n = d).
  { unfold fromordinal in F. unfold date_of_ordinal.
    destruct (_ord2ymd n) as [[y m] dd]. apply new_inv in F. symmetry. apply F. }
  rewrite E. auto.
Qed.

Lemma date_of_ordinal_toordinal d : valid d -> date_of_ordinal (toordinal d) = d.
Proof.
  intros V. pose proof (toordinal_bounds d V) as B.
  destruct (date_of_ordinal_spec _ B) as (F & _).
  rewrite (fromordinal_toordinal d V) in F. congruence.
Qed.

Lemma enumerate_window_days s e :
  valid s -> valid e -> enumerate_window (s, e) = Ok (days s e).
Proof.
  intros Vs Ve. unfold enumerate_window, days.
  apply comprehension_map. intros i Hi. apply range_In in Hi.
  unfold sub_days in Hi. unfold add_days.
  pose proof (toordinal_bounds s Vs). pose proof (toordinal_bounds e Ve).
  replace ((0 <? toordinal s + i) && (toordinal s + i <=? _MAXORDINAL)) with true
    by (symmetry; apply andb_true_intro; split; [apply Z.ltb_lt | apply Z.leb_le]; lia).
  apply date_of_ordinal_spec. lia.
Qed.

Lemma days_length s e :
  toordinal s <= toordinal e ->
  Z.of_nat (List.length (days s e)) = sub_days e s + 1.
Proof.
  intros H. unfold days. rewrite length_map, range_length. unfold sub_days. lia.
Qed.

Lemma days_nth_error s e i :
  valid s -> valid e -> (i < List.length (days s e))%nat ->
  exists d, nth_error (days s e) i = Some d /\ valid d
            /\ toordinal d = toordinal s + Z.of_nat i.
Proof.
  intros Vs Ve Hi. unfold days in *. rewrite length_map, range_length in Hi.
  rewrite nth_error_map, range_nth_error by assumption. cbn.
  pose proof (toordinal_bounds s Vs). pose proof (toordinal_bounds e Ve).
  unfold sub_days in Hi.
  destruct (date_of_ordinal_spec (toordinal s + Z.of_nat i) ltac:(lia)) as (_ & V & T).
  eauto.
Qed.

Lemma days_first s e :
  valid s -> valid e -> toordinal s <= toordinal e ->
  hd_error (days s e) = Some s.
Proof.
  intros Vs Ve H.
  destruct (days_nth_error s e 0 Vs Ve) as (d & N & V & T).
  { apply Nat2Z.inj_lt. rewrite days_length by assumption. unfold sub_days. lia. }
  destruct (days s e) as [|x l]; [discriminate|]. cbn in N |- *.
  injection N as ->. f_equal.
  rewrite <- (date_of_ordinal_toordinal d V), <- (date_of_ordinal_toordinal s Vs).
  f_equal. lia.
Qed.

Lemma days_last s e :
  valid s -> valid e -> toordinal s <= toordinal e ->
  last (days s e) s = e.
Proof.
  intros Vs Ve H.
  pose proof (days_length s e H) as L.
  destruct (days_nth_error s e (Nat.pred (List.length (days s e))) Vs Ve)
    as (d & N & V & T).
  { unfold sub_days in L. lia. }
  assert (E : d = e).
  { rewrite <- (date_of_ordinal_toordinal d V), <- (date_of_ordinal_toordinal e Ve).
    f_equal. unfold sub_days in L. lia. }
  subst d.
  destruct (days s e) as [|x l] eqn:D; [discriminate|].
  assert (X : x :: l <> []) by discriminate.
  destruct (exists_last X) as (l' & y & E'). rewrite E' in *.
  rewrite last_last. rewrite length_app in N. cbn in N.
  replace (Nat.pred (List.length l' + 1)) with (List.length l') in N by lia.
  rewrite nth_error_app2 in N by lia. rewrite Nat.sub_diag in N. cbn in N. congruence.
Qed.

(** Consecutive days are one day apart. *)
Lemma days_consecutive s e i a b :
  valid s -> valid e ->
  nth_error (days s e) i = Some a -> nth_error (days s e) (S i) = Some b ->
  sub_days b a = 1.
Proof.
  intros Vs Ve Ha Hb.
  assert (Hi : (S i < List.length (days s e))%nat)
    by (apply nth_error_Some; congruence).
  destruct (days_nth_error s e i Vs Ve ltac:(lia)) as (a' & Na & _ & Ta).
  destruct (days_nth_error s e (S i) Vs Ve Hi) as (b' & Nb & _ & Tb).
  rewrite Ha in Na. rewrite Hb in Nb. injection Na as <-. injection Nb as <-.
  unfold sub_days. lia.
Qed.

(** A date built from an anchor of the table. *)
Lemma anchor_valid k y :
  anchor_ok k = true -> MINYEAR <= y <= MAXYEAR ->
  valid (ymd y (fst (anchor_of k)) (snd (anchor_of k))).
Proof.
  unfold anchor_ok, anchor_of.
  destruct (dict_get nepali_to_english_dates_conversion k) as [[m d]|]; [|discriminate].
  intros H Hy. repeat (apply andb_prop in H; destruct H as [H ?]).
  unfold valid, ymd. cbn [year month day fst snd].
  rewrite days_in_month_dim.
  pose proof (months_spec (_is_leap y) m ltac:(lia)) as (_ & D & _). lia.
Qed.

Lemma anchor_lookup k :
  anchor_ok k = true ->
  dict_item nepali_to_english_dates_conversion k = Ok (anchor_of k).
Proof.
  unfold anchor_ok, anchor_of, dict_item.
  destruct (dict_get nepali_to_english_dates_conversion k); [reflexivity | discriminate].
Qed.

(** With both years of Window B and both years of Window A in the range of
    [datetime.date], the window is computed. *)
Lemma sowing_window_ok today k1 k2 :
  anchor_ok k1 = true -> anchor_ok k2 = true ->
  MINYEAR < year today ->
  year today + (if crosses_year (anchor_of k1) (anchor_of k2) then 1 else 0) <= MAXYEAR ->
  sowing_window today k1 k2 = Ok (selected today (anchor_of k1) (anchor_of k2)).
Proof.
  intros K1 K2 Hlo Hhi. unfold sowing_window.
  rewrite (anchor_lookup k1 K1), (anchor_lookup k2 K2). cbn [bind].
  destruct (anchor_of k1) as [m1 d1] eqn:E1, (anchor_of k2) as [m2 d2] eqn:E2.
  unfold crosses_year in Hhi. cbn [fst snd] in Hhi.
  pose proof (anchor_valid k1) as V1. pose proof (anchor_valid k2) as V2.
  rewrite E1 in V1. rewrite E2 in V2. cbn [fst snd] in V1, V2.
  unfold MINYEAR, MAXYEAR in *.
  unfold selected, window_A, window_B, crosses_year, ymd. cbn [fst snd].
  destruct (m2 <? m1);
    rewrite (new_valid (year today) m1 d1) by (apply V1; [assumption | lia]);
    cbn [bind];
    rewrite (new_valid _ m2 d2) by (apply V2; [assumption | lia]);
    cbn [bind];
    rewrite (new_valid (year today - 1) m1 d1) by (apply V1; [assumption | lia]);
    cbn [bind];
    rewrite (new_valid _ m2 d2) by (apply V2; [assumption | lia]);
    cbn [bind]; unfold in_window; cbn [fst snd];
    (destruct (le _ today && le today _);
     [reflexivity | destruct (le _ today && le today _); reflexivity]).
Qed.

(** Whenever a window is computed it is the selected one, and both its
    dates are date objects. *)
Lemma sowing_window_inv today k1 k2 w :
  sowing_window today k1 k2 = Ok w ->
  dict_get nepali_to_english_dates_conversion k1 = Some (anchor_of k1)
  /\ dict_get nepali_to_english_dates_conversion k2 = Some (anchor_of k2)
  /\ w = selected today (anchor_of k1) (anchor_of k2)
  /\ valid (fst w) /\ valid (snd w).
Proof.
  unfold sowing_window, dict_item, anchor_of.
  destruct (dict_get nepali_to_english_dates_conversion k1) as [[m1 d1]|];
    [|discriminate].
  destruct (dict_get nepali_to_english_dates_conversion k2) as [[m2 d2]|];
    [|discriminate].
  cbn [bind].
  destruct (new (year today) m1 d1) as [s1|] eqn:N1; [|discriminate]. cbn [bind].
  destruct (new (if m2 <? m1 then year today + 1 else year today) m2 d2)
    as [e1|] eqn:N2; [|discriminate]. cbn [bind].
  destruct (new (year today - 1) m1 d1) as [s2|] eqn:N3; [|discriminate]. cbn [bind].
  destruct (new (if m2 <? m1 then year today else year today - 1) m2 d2)
    as [e2|] eqn:N4; [|discriminate]. cbn [bind].
  apply new_inv in N1, N2, N3, N4.
  destruct N1 as [-> V1], N2 as [-> V2], N3 as [-> V3], N4 as [-> V4].
  intros H. split; [reflexivity|]. split; [reflexivity|].
  unfold selected, window_A, window_B, in_window, crosses_year, ymd.
  cbn [fst snd].
  destruct (le _ today && le today _);
    [|destruct (le _ today && le today _)];
    injection H as <-; cbn [fst snd]; auto.
Qed.

(** The start of the selected window is not after its end. *)
Lemma selected_ordered today k1 k2 :
  In k1 (keys nepali_to_english_dates_conversion) ->
  In k2 (keys nepali_to_english_dates_conversion) ->
  let w := selected today (anchor_of k1) (anchor_of k2) in
  le (fst w) (snd w) = true.
Proof.
  intros I1 I2. pose proof (anchors_ordered_keys k1 k2 I1 I2) as O.
  unfold anchors_ordered in O.
  destruct (anchor_of k1) as [m1 d1], (anchor_of k2) as [m2 d2].
  cbv zeta. unfold selected, window_A, window_B, crosses_year, ymd. cbn [fst snd].
  assert (G : forall y, le (mkDate y m1 d1)
                          (mkDate (if m2 <? m1 then y + 1 else y) m2 d2) = true).
  { intros y. unfold le. cbn [year month day].
    destruct (Z.ltb_spec m2 m1) as [L|L].
    - replace (y <? y + 1) with true by (symmetry; apply Z.ltb_lt; lia). reflexivity.
    - rewrite Z.ltb_irrefl, Z.eqb_refl. cbn [orb andb].
      cbn [orb] in O. exact O. }
  pose proof (G (year today)) as GA. pose proof (G (year today - 1)) as GB.
  replace (year today - 1 + 1) with (year today) in GB by lia.
  destruct (in_window today _); [exact GA|].
  destruct (in_window today _); [exact GB | exact GA].
Qed.

(** The years of the selected window. *)
Lemma selected_years today a1 a2 :
  let w := selected today a1 a2 in
  year (snd w) = year (fst w) + (if crosses_year a1 a2 then 1 else 0).
Proof.
  cbv zeta. unfold selected, window_A, window_B, ymd.
  destruct (in_window today _); [|destruct (in_window today _)];
    cbn [fst snd year]; destruct (crosses_year a1 a2); lia.
Qed.

(** The resolver in terms of its stages. *)
Lemma resolver_stages today nep_range :
  get_nepali_sowing_dates unicode_lower today nep_range =
  match range_tokens unicode_lower nep_range with
  | None => Ok []
  | Some (start_month_nep, end_month_nep) =>
      start_month_nep_key <- _normalize_nepali_month unicode_lower start_month_nep ;;
      end_month_nep_key <- _normalize_nepali_month unicode_lower end_month_nep ;;
      w <- sowing_window today start_month_nep_key end_month_nep_key ;;
      enumerate_window w
  end.
Proof.
  unfold get_nepali_sowing_dates, range_tokens.
  destruct nep_range as [|[|c s]|]; try reflexivity.
  destruct (not_applicable _); [reflexivity|].
  destruct (_ <? 2)%nat; reflexivity.
Qed.

End WindowFacts.

(* ================================================================= *)
(** * The month normalizer *)

Section Normalizer.

Variable unicode_lower : char -> pystr.

Lemma normalize_exact name key :
  name <> [] -> exact_match unicode_lower name = Some key ->
  _normalize_nepali_month unicode_lower name = Ok key.
Proof.
  intros N E. unfold _normalize_nepali_month. destruct name; [congruence|].
  unfold exact_match in E. rewrite E. reflexivity.
Qed.

(** C3: for a token of one or more whitespace characters the normalizer
    does not raise "Empty month name": the emptiness test comes before the
    trimming, no exact, alias or close match exists for the empty string,
    and the prefix strategy compares with the empty prefix, which every
    key starts with; the first key, Baisakh, is returned. *)
Theorem C3_whitespace_token_returns_Baisakh (name : pystr) :
  name <> [] -> forallb Str.isspace name = true ->
  _normalize_nepali_month unicode_lower name = Ok (u "Baisakh").
Proof.
  intros N W. unfold _normalize_nepali_month. destruct name as [|c name]; [congruence|].
  rewrite (strip_all_spaces _ W). vm_compute. reflexivity.
Qed.

(** C9: each of the twelve canonical names, its upper-cased form, and the
    name between two runs of whitespace are resolved by the exact,
    case-insensitive strategy to that name. *)
Theorem C9_canonical_names_normalize (name ws1 ws2 : pystr) :
  In name (keys nepali_to_english_dates_conversion) ->
  forallb Str.isspace ws1 = true -> forallb Str.isspace ws2 = true ->
  (exact_match unicode_lower name = Some name
   /\ _normalize_nepali_month unicode_lower name = Ok name)
  /\ (exact_match unicode_lower (Str.upper_ascii name) = Some name
      /\ _normalize_nepali_month unicode_lower (Str.upper_ascii name) = Ok name)
  /\ (exact_match unicode_lower (ws1 ++ name ++ ws2) = Some name
      /\ _normalize_nepali_month unicode_lower (ws1 ++ name ++ ws2) = Ok name).
Proof.
  intros I W1 W2.
  assert (S : Str.strip (ws1 ++ name ++ ws2) = name /\ name <> []
              /\ Str.strip name = name
              /\ exact_match unicode_lower name = Some name
              /\ exact_match unicode_lower (Str.upper_ascii name) = Some name).
  { unfold keys, nepali_to_english_dates_conversion in I. cbn [map fst In] in I.
    repeat (destruct I as [<-|I];
            [split; [apply strip_surrounded; try assumption; try reflexivity;
                     discriminate|];
             repeat split; try discriminate; vm_compute; reflexivity|]).
    destruct I. }
  destruct S as (S & N & SN & E & EU).
  assert (NU : Str.upper_ascii name <> []).
  { destruct name; [congruence | discriminate]. }
  assert (EW : exact_match unicode_lower (ws1 ++ name ++ ws2) = Some name).
  { unfold exact_match in *. rewrite S. rewrite SN in E. exact E. }
  repeat split; try assumption.
  - apply normalize_exact; assumption.
  - apply normalize_exact; assumption.
  - apply normalize_exact; [|assumption].
    destruct ws1; [destruct name; [congruence|discriminate]|discriminate].
Qed.

End Normalizer.

(* ================================================================= *)
(** * The range resolver *)

Section Resolver.
Import datetime calendar datetime_facts.

Variable unicode_lower : char -> pystr.

(** The hyphen is outside the character class; the other three glyphs are
    inside. *)
Lemma dash_class_glyphs :
  in_dash_class Str.HYPHEN = false /\ in_dash_class Str.EM_DASH = true
  /\ in_dash_class Str.MINUS_SIGN = true /\ in_dash_class Str.EN_DASH = true.
Proof. repeat split. Qed.

(** C2: with an ASCII hyphen as separator the range is not split: on
    2024-05-01 "Baisakh-Jestha" resolves to the empty list, while the same
    months separated by an en-dash, an em-dash or a minus sign resolve to
    the 32 days from 2024-04-14. *)
Theorem C2_hyphen_is_not_a_separator :
  get_nepali_sowing_dates unicode_lower (ymd 2024 5 1) (Str (u "Baisakh-Jestha"))
  = Ok []
  /\ get_nepali_sowing_dates unicode_lower (ymd 2024 5 1)
       (Str (en_dash_range "Baisakh" "Jestha"))
     = Ok (days (ymd 2024 4 14) (ymd 2024 5 15))
  /\ get_nepali_sowing_dates unicode_lower (ymd 2024 5 1)
       (Str (u "Baisakh" ++ [Str.EM_DASH] ++ u "Jestha"))
     = Ok (days (ymd 2024 4 14) (ymd 2024 5 15))
  /\ get_nepali_sowing_dates unicode_lower (ymd 2024 5 1)
       (Str (u "Baisakh" ++ [Str.MINUS_SIGN] ++ u "Jestha"))
     = Ok (days (ymd 2024 4 14) (ymd 2024 5 15))
  /\ days (ymd 2024 4 14) (ymd 2024 5 15) <> [].
Proof.
  repeat split; try (vm_compute; reflexivity). vm_compute. discriminate.
Qed.

(** C4, as the code has it: a non-sentinel input whose dash-normalized
    form splits into fewer than two segments resolves to the empty list
    without raising, which is also what every sentinel input resolves
    to. *)
Theorem C4_fewer_than_two_segments_is_empty (today : date) (raw : pystr) :
  not_applicable (lower unicode_lower (sub_dashes (Str.strip raw))) = false ->
  (List.length (Str.split Str.EN_DASH (sub_dashes (Str.strip raw))) < 2)%nat ->
  get_nepali_sowing_dates unicode_lower today (Str raw) = Ok []
  /\ forall sentinel,
       not_applicable (lower unicode_lower (sub_dashes (Str.strip sentinel))) = true ->
       get_nepali_sowing_dates unicode_lower today (Str sentinel)
       = get_nepali_sowing_dates unicode_lower today (Str raw).
Proof.
  intros NS L.
  assert (R : get_nepali_sowing_dates unicode_lower today (Str raw) = Ok []).
  { unfold get_nepali_sowing_dates. destruct raw as [|c raw]; [reflexivity|].
    cbv beta iota zeta. rewrite NS. apply Nat.ltb_lt in L. rewrite L. reflexivity. }
  split; [exact R|]. intros sentinel S. rewrite R.
  unfold get_nepali_sowing_dates. destruct sentinel as [|c s]; [reflexivity|].
  cbv beta iota zeta. rewrite S. reflexivity.
Qed.

(** C5: on 2024-05-01 the range Baisakh-Jestha (en-dash) resolves to the
    32 days from 2024-04-14 to 2024-05-15. *)
Theorem C5_baisakh_jestha_on_2024_05_01 :
  exists seq,
    get_nepali_sowing_dates unicode_lower (ymd 2024 5 1)
      (Str (en_dash_range "Baisakh" "Jestha")) = Ok seq
    /\ hd_error seq = Some (ymd 2024 4 14)
    /\ last seq (ymd 2024 5 1) = ymd 2024 5 15
    /\ List.length seq = 32%nat
    /\ seq = days (ymd 2024 4 14) (ymd 2024 5 15).
Proof.
  exists (days (ymd 2024 4 14) (ymd 2024 5 15)).
  repeat split; vm_compute; reflexivity.
Qed.

Lemma parses_stages today nep_range k1 k2 :
  parses unicode_lower nep_range k1 k2 ->
  get_nepali_sowing_dates unicode_lower today nep_range
  = (w <- sowing_window today k1 k2 ;; enumerate_window w)
  /\ In k1 (keys nepali_to_english_dates_conversion)
  /\ In k2 (keys nepali_to_english_dates_conversion).
Proof.
  intros (t1 & t2 & T & N1 & N2). rewrite resolver_stages, T, N1, N2.
  split; [reflexivity|]. split; eapply normalize_in_keys; eassumption.
Qed.

(** What a parseable range resolves to whenever it resolves. *)
Lemma resolved_sequence today nep_range k1 k2 seq :
  parses unicode_lower nep_range k1 k2 ->
  get_nepali_sowing_dates unicode_lower today nep_range = Ok seq ->
  let w := selected today (anchor_of k1) (anchor_of k2) in
  sowing_window today k1 k2 = Ok w
  /\ valid (fst w) /\ valid (snd w)
  /\ toordinal (fst w) <= toordinal (snd w)
  /\ seq = days (fst w) (snd w).
Proof.
  intros P R. destruct (parses_stages today _ _ _ P) as (E & I1 & I2).
  rewrite E in R. destruct (sowing_window today k1 k2) as [w|] eqn:W; [|discriminate].
  cbn [bind] in R.
  destruct (sowing_window_inv _ _ _ _ W) as (_ & _ & -> & V1 & V2).
  cbv zeta.
  pose proof (selected_ordered today k1 k2 I1 I2) as O. cbv zeta in O.
  apply (le_toordinal _ _ V1 V2) in O.
  destruct (selected today (anchor_of k1) (anchor_of k2)) as [s e].
  cbn [fst snd] in *.
  rewrite (enumerate_window_days s e V1 V2) in R. injection R as <-.
  auto.
Qed.

(** A parseable range resolves when the year before [today]'s is a year
    of [datetime.date] and, for a range that crosses the year, so is the
    year after. *)
Lemma resolves today nep_range k1 k2 :
  parses unicode_lower nep_range k1 k2 ->
  MINYEAR < year today ->
  year today + (if crosses_year (anchor_of k1) (anchor_of k2) then 1 else 0) <= MAXYEAR ->
  exists seq, get_nepali_sowing_dates unicode_lower today nep_range = Ok seq.
Proof.
  intros P Ylo Yhi. destruct (parses_stages today _ _ _ P) as (E & I1 & I2).
  rewrite E.
  assert (W : sowing_window today k1 k2
              = Ok (selected today (anchor_of k1) (anchor_of k2))).
  { apply sowing_window_ok; try apply anchor_ok_keys; assumption. }
  destruct (sowing_window_inv _ _ _ _ W) as (_ & _ & _ & V1 & V2).
  rewrite W. cbn [bind].
  destruct (selected today (anchor_of k1) (anchor_of k2)) as [s e].
  rewrite (enumerate_window_days s e V1 V2). eauto.
Qed.

(** C6: for a parseable range whose end anchor has the smaller month, the
    window that is resolved ends in the year after the one it starts in,
    and so do the first and the last date of the sequence; the range
    resolves for every [today] strictly between the first and the last year
    of [datetime.date]. *)
Theorem C6_year_wrap (today : date) (nep_range : cell) (k1 k2 : pystr) :
  parses unicode_lower nep_range k1 k2 ->
  fst (anchor_of k2) < fst (anchor_of k1) ->
  (forall w, sowing_window today k1 k2 = Ok w ->
             year (snd w) = year (fst w) + 1)
  /\ (forall seq,
        get_nepali_sowing_dates unicode_lower today nep_range = Ok seq ->
        exists start_date end_date,
          sowing_window today k1 k2 = Ok (start_date, end_date)
          /\ hd_error seq = Some start_date
          /\ last seq start_date = end_date
          /\ year end_date = year start_date + 1)
  /\ (MINYEAR < year today < MAXYEAR ->
      exists seq, get_nepali_sowing_dates unicode_lower today nep_range = Ok seq).
Proof.
  intros P C.
  assert (X : crosses_year (anchor_of k1) (anchor_of k2) = true)
    by (apply Z.ltb_lt; exact C).
  pose proof (selected_years today (anchor_of k1) (anchor_of k2)) as Y.
  cbv zeta in Y. rewrite X in Y.
  split; [|split].
  - intros w W. destruct (sowing_window_inv _ _ _ _ W) as (_ & _ & -> & _). exact Y.
  - intros seq R.
    destruct (resolved_sequence today _ _ _ _ P R) as (W & V1 & V2 & O & ->).
    destruct (selected today (anchor_of k1) (anchor_of k2)) as [s e].
    cbn [fst snd] in *. exists s, e.
    split; [exact W|]. split; [apply days_first; assumption|].
    split; [apply days_last; assumption | exact Y].
  - intros [Ylo Yhi]. apply (resolves today nep_range k1 k2 P Ylo).
    rewrite X. unfold MAXYEAR in *. lia.
Qed.


(** C8: the sequence returned for a parseable range is the expansion of
    the selected window: the window's start is not after its end, the
    sequence starts at the start, has one element per day of the window,
    ends at the end, and each element is one day after the one before. *)
Theorem C8_sequence_invariant (today : date) (nep_range : cell) (k1 k2 : pystr)
    (seq : list date) :
  parses unicode_lower nep_range k1 k2 ->
  get_nepali_sowing_dates unicode_lower today nep_range = Ok seq ->
  exists start_date end_date,
    sowing_window today k1 k2 = Ok (start_date, end_date)
    /\ le start_date end_date = true
    /\ hd_error seq = Some start_date
    /\ Z.of_nat (List.length seq) = sub_days end_date start_date + 1
    /\ last seq start_date = end_date
    /\ forall i a b,
         nth_error seq i = Some a -> nth_error seq (S i) = Some b ->
         sub_days b a = 1 /\ le a b = true /\ le b a = false.
Proof.
  intros P R.
  destruct (resolved_sequence today _ _ _ _ P R) as (W & V1 & V2 & O & ->).
  destruct (selected today (anchor_of k1) (anchor_of k2)) as [s e].
  cbn [fst snd] in *. exists s, e.
  split; [exact W|].
  split; [apply le_toordinal; assumption|].
  split; [apply days_first; assumption|].
  split; [apply days_length; assumption|].
  split; [apply days_last; assumption|].
  intros i a b Ha Hb.
  pose proof (days_consecutive s e i a b V1 V2 Ha Hb) as D.
  assert (Hi : (S i < List.length (days s e))%nat)
    by (apply nth_error_Some; congruence).
  destruct (days_nth_error s e i V1 V2 ltac:(lia)) as (a' & Na & Va & _).
  destruct (days_nth_error s e (S i) V1 V2 Hi) as (b' & Nb & Vb & _).
  rewrite Ha in Na. rewrite Hb in Nb. injection Na as <-. injection Nb as <-.
  unfold sub_days in D. split; [exact D|]. split.
  - apply le_toordinal; [assumption..|lia].
  - destruct (le b a) eqn:L; [|reflexivity].
    apply le_toordinal in L; [lia | assumption..].
Qed.

(** C10: when the dash-normalized string splits into two segments or more,
    the result is computed from the first two alone: the start token is
    the first segment, the end token the second one up to its first
    parenthesis, and no later segment takes part. *)
Theorem C10_extra_segments_ignored (today : date) (raw m0 m1 : pystr)
    (more : list pystr) :
  raw <> [] ->
  not_applicable (lower unicode_lower (sub_dashes (Str.strip raw))) = false ->
  Str.split Str.EN_DASH (sub_dashes (Str.strip raw)) = m0 :: m1 :: more ->
  get_nepali_sowing_dates unicode_lower today (Str raw)
  = (start_month_nep_key <- _normalize_nepali_month unicode_lower (Str.strip m0) ;;
     end_month_nep_key <-
       _normalize_nepali_month unicode_lower (Str.strip (nth 0 (Str.split Str.LPAREN m1) [])) ;;
     w <- sowing_window today start_month_nep_key end_month_nep_key ;;
     enumerate_window w).
Proof.
  intros N NS S. unfold get_nepali_sowing_dates.
  destruct raw as [|c raw]; [congruence|].
  cbv beta iota zeta. rewrite NS, S. reflexivity.
Qed.

End Resolver.

(* ================================================================= *)
(** * The batch of a place *)

Section Batch.

Variable unicode_lower : char -> pystr.
Variable df : list row.
Variable clock : nat -> datetime.date.

Lemma crops_loop_all_resolve col crops : forall k result,
  (forall j r, nth_error crops j = Some r ->
     exists dates,
       get_nepali_sowing_dates unicode_lower (clock (k + j)) (sowing r col) = Ok dates) ->
  exists d,
    crops_loop unicode_lower clock k col crops result = (Some d, None)
    /\ (forall r, In r crops -> dict_get d (label r) <> None)
    /\ (forall key, dict_get result key <> None -> dict_get d key <> None).
Proof.
  induction crops as [|r crops IH]; intros k result H.
  - exists result. cbn. split; [reflexivity|]. split; [intros r []|auto].
  - destruct (H 0%nat r eq_refl) as (dates & R). rewrite Nat.add_0_r in R.
    cbn [crops_loop]. rewrite R.
    destruct (IH (S k) (dict_set result (label r) dates)) as (d & E & A & B).
    { intros j r' N. replace (S k + j)%nat with (k + S j)%nat by lia.
      apply (H (S j) r' N). }
    exists d. split; [exact E|]. split.
    + intros r' [<-|I]; [|apply A, I].
      apply B. rewrite dict_get_set_same. discriminate.
    + intros key K. apply B, dict_set_keeps, K.
Qed.

Lemma crops_loop_first_failure col crops : forall k result j r e,
  nth_error crops j = Some r ->
  get_nepali_sowing_dates unicode_lower (clock (k + j)) (sowing r col) = Raise e ->
  (forall i r', (i < j)%nat -> nth_error crops i = Some r' ->
     exists dates,
       get_nepali_sowing_dates unicode_lower (clock (k + i)) (sowing r' col) = Ok dates) ->
  crops_loop unicode_lower clock k col crops result
  = (None, Some (error_message r col e)).
Proof.
  induction crops as [|r0 crops IH]; intros k result j r e N R H.
  - destruct j; discriminate.
  - destruct j as [|j].
    + injection N as ->. rewrite Nat.add_0_r in R. cbn [crops_loop]. rewrite R.
      reflexivity.
    + destruct (H 0%nat r0 ltac:(lia) eq_refl) as (dates & R0).
      rewrite Nat.add_0_r in R0. cbn [crops_loop]. rewrite R0.
      apply (IH (S k) _ j r e N).
      * replace (S k + j)%nat with (k + S j)%nat by lia. exact R.
      * intros i r' Hi N'. replace (S k + i)%nat with (k + S i)%nat by lia.
        apply (H (S i) r'); [lia | exact N'].
Qed.

(** C1, as the code has it: the rows of the chosen column are resolved in
    order.  When every one resolves, the call returns a dictionary with an
    entry under the label of every row and no error.  When one raises, the
    call returns at the first such row with no dictionary at all and the
    message naming that row's range: no entry is returned for any other
    crop. *)
Theorem C1_first_failure_ends_the_batch (place_name : pystr) (col : column) :
  place_column (lower unicode_lower place_name) = Some col ->
  let crops := filter (fun r => notna (sowing r col)) df in
  ((forall j r, nth_error crops j = Some r ->
      exists dates,
        get_nepali_sowing_dates unicode_lower (clock j) (sowing r col) = Ok dates) ->
   exists d,
     get_crops_for_place unicode_lower df clock place_name = (Some d, None)
     /\ forall r, In r crops -> dict_get d (label r) <> None)
  /\ (forall j r e,
        nth_error crops j = Some r ->
        get_nepali_sowing_dates unicode_lower (clock j) (sowing r col) = Raise e ->
        (forall i r', (i < j)%nat -> nth_error crops i = Some r' ->
           exists dates,
             get_nepali_sowing_dates unicode_lower (clock i) (sowing r' col) = Ok dates) ->
        get_crops_for_place unicode_lower df clock place_name
        = (None, Some (error_message r col e))).
Proof.
  intros P crops. unfold get_crops_for_place. rewrite P. fold crops. split.
  - intros H.
    destruct (crops_loop_all_resolve col crops 0%nat [] H) as (d & E & A & _).
    exists d. split; assumption.
  - intros j r e N R H.
    apply (crops_loop_first_failure col crops 0%nat [] j r e N R H).
Qed.

End Batch.

(* ================================================================= *)
(** * The claims at concrete inputs *)

Section Examples.
Import datetime.

(** The strategies of the normalizer, one input each. *)
Example normalize_alias :
  _normalize_nepali_month caseless (u "Ashoj") = Ok (u "Ashwin").
Proof. reflexivity. Qed.

Example normalize_close_match :
  dict_get aliases (lower caseless (u "Mansir")) = None
  /\ _normalize_nepali_month caseless (u "Mansir") = Ok (u "Mangsir").
Proof. split; reflexivity. Qed.

Example normalize_prefix :
  difflib.get_close_matches (u "Magxxxxxxxxxx")
    (keys nepali_to_english_dates_conversion) 1 (1 # 2) = []
  /\ _normalize_nepali_month caseless (u "Magxxxxxxxxxx") = Ok (u "Magh").
Proof. split; reflexivity. Qed.

Example normalize_unrecognized :
  _normalize_nepali_month caseless (u "Xyzzy") = Raise (UnrecognizedMonth (u "Xyzzy")).
Proof. reflexivity. Qed.

(** The paths of the resolver that return the empty list, and a range
    with an em-dash and a parenthesised note. *)
Example resolve_sentinels :
  get_nepali_sowing_dates caseless (ymd 2024 5 1) (Str (u "Not Recommended")) = Ok []
  /\ get_nepali_sowing_dates caseless (ymd 2024 5 1) (Str (u "")) = Ok []
  /\ get_nepali_sowing_dates caseless (ymd 2024 5 1) (Str (u "n/a")) = Ok []
  /\ get_nepali_sowing_dates caseless (ymd 2024 5 1) NaN = Ok [].
Proof. repeat split. Qed.

Example resolve_with_note :
  get_nepali_sowing_dates caseless (ymd 2024 5 1)
    (Str (u " Baisakh " ++ [Str.EM_DASH] ++ u " jestha (mid hills) "))
  = Ok (days (ymd 2024 4 14) (ymd 2024 5 15)).
Proof. vm_compute. reflexivity. Qed.

(** An empty first segment is the empty token, which the normalizer
    rejects. *)
Example resolve_empty_token :
  get_nepali_sowing_dates caseless (ymd 2024 5 1) (Str ([Str.EN_DASH] ++ u "Jestha"))
  = Raise EmptyInput.
Proof. reflexivity. Qed.

(** C1 fails as stated: in a batch of three lowland crops the second range
    raises; the call returns no dictionary, only the message for that
    range, although the ranges of the first and the third crop resolve. *)
Lemma C1_one_bad_range_aborts_the_batch :
  get_crops_for_place caseless sample_df may_day (u "Terai")
  = (None,
     Some (u "Error parsing sowing range 'Xyzzy" ++ [Str.EN_DASH]
           ++ u "Jestha': Unrecognized Nepali month name: 'Xyzzy'"))
  /\ get_nepali_sowing_dates caseless (ymd 2024 5 1) (sowing wheat Terai_Bensi_Sowing)
     = Ok (days (ymd 2024 10 18) (ymd 2024 11 17))
  /\ get_nepali_sowing_dates caseless (ymd 2024 5 1) (sowing maize Terai_Bensi_Sowing)
     = Ok (days (ymd 2024 4 14) (ymd 2024 5 15)).
Proof. repeat split; vm_compute; reflexivity. Qed.

Lemma C1_witness :
  place_column (lower caseless (u "Terai")) = Some Terai_Bensi_Sowing
  /\ (exists d,
        get_crops_for_place caseless clean_df may_day (u "Terai") = (Some d, None)
        /\ dict_get d (label wheat) <> None /\ dict_get d (label maize) <> None)
  /\ get_crops_for_place caseless sample_df may_day (u "Terai")
     = (None, Some (error_message rice Terai_Bensi_Sowing
                      (UnrecognizedMonth (u "Xyzzy")))).
Proof.
  assert (P : place_column (lower caseless (u "Terai")) = Some Terai_Bensi_Sowing)
    by reflexivity.
  split; [exact P|]. split.
  - destruct (C1_first_failure_ends_the_batch caseless clean_df may_day
                (u "Terai") Terai_Bensi_Sowing P) as [A _].
    destruct A as (d & E & I).
    + intros j r N. change (nth_error [wheat; maize] j = Some r) in N.
      destruct j as [|[|[|j]]]; cbn [nth_error] in N; try discriminate;
        injection N as <-; eexists; vm_compute; reflexivity.
    + exists d. split; [exact E|].
      split; apply I; vm_compute; tauto.
  - destruct (C1_first_failure_ends_the_batch caseless sample_df may_day
                (u "Terai") Terai_Bensi_Sowing P) as [_ B].
    apply (B 1%nat rice (UnrecognizedMonth (u "Xyzzy"))).
    + reflexivity.
    + vm_compute. reflexivity.
    + intros i r' Hi N. destruct i as [|i]; [|lia].
      change (Some wheat = Some r') in N.
      injection N as <-. eexists. vm_compute. reflexivity.
Defined.

Lemma C3_witness :
  u " " <> [] /\ forallb Str.isspace (u " ") = true
  /\ _normalize_nepali_month caseless (u " ") = Ok (u "Baisakh").
Proof.
  assert (N : u " " <> []) by discriminate.
  assert (W : forallb Str.isspace (u " ") = true) by reflexivity.
  split; [exact N|]. split; [exact W|].
  exact (C3_whitespace_token_returns_Baisakh caseless (u " ") N W).
Defined.

(** C4 fails as stated: "Baisakh" is no sentinel and has a single
    segment, yet the resolver raises nothing and returns the empty list,
    the very result of the sentinel "n/a". *)
Lemma C4_single_segment_is_no_error :
  not_applicable (lower caseless (sub_dashes (Str.strip (u "Baisakh")))) = false
  /\ List.length (Str.split Str.EN_DASH (sub_dashes (Str.strip (u "Baisakh")))) = 1%nat
  /\ get_nepali_sowing_dates caseless (ymd 2024 5 1) (Str (u "Baisakh")) = Ok []
  /\ get_nepali_sowing_dates caseless (ymd 2024 5 1) (Str (u "n/a")) = Ok [].
Proof. repeat split. Qed.

Lemma C4_witness :
  not_applicable (lower caseless (sub_dashes (Str.strip (u "Baisakh to Jestha")))) = false
  /\ get_nepali_sowing_dates caseless (ymd 2024 5 1) (Str (u "Baisakh to Jestha")) = Ok []
  /\ get_nepali_sowing_dates caseless (ymd 2024 5 1) (Str (u "Not Recommended"))
     = get_nepali_sowing_dates caseless (ymd 2024 5 1) (Str (u "Baisakh to Jestha")).
Proof.
  assert (NS : not_applicable
                 (lower caseless (sub_dashes (Str.strip (u "Baisakh to Jestha")))) = false)
    by reflexivity.
  assert (L : (List.length (Str.split Str.EN_DASH
                              (sub_dashes (Str.strip (u "Baisakh to Jestha")))) < 2)%nat)
    by (vm_compute; lia).
  destruct (C4_fewer_than_two_segments_is_empty caseless (ymd 2024 5 1)
              (u "Baisakh to Jestha") NS L) as [R S].
  split; [exact NS|]. split; [exact R|].
  apply S. reflexivity.
Defined.

Lemma poush_magh_parses :
  parses caseless (Str (en_dash_range "Poush" "Magh")) (u "Poush") (u "Magh").
Proof. exists (u "Poush"), (u "Magh"). repeat split. Defined.

Lemma baisakh_jestha_parses :
  parses caseless (Str (en_dash_range "Baisakh" "Jestha")) (u "Baisakh") (u "Jestha").
Proof. exists (u "Baisakh"), (u "Jestha"). repeat split. Defined.

Lemma C6_witness :
  fst (anchor_of (u "Magh")) < fst (anchor_of (u "Poush"))
  /\ exists seq start_date end_date,
       get_nepali_sowing_dates caseless (ymd 2025 1 2)
         (Str (en_dash_range "Poush" "Magh")) = Ok seq
       /\ sowing_window (ymd 2025 1 2) (u "Poush") (u "Magh") = Ok (start_date, end_date)
       /\ hd_error seq = Some start_date
       /\ last seq start_date = end_date
       /\ year end_date = year start_date + 1.
Proof.
  assert (C : fst (anchor_of (u "Magh")) < fst (anchor_of (u "Poush")))
    by (vm_compute; reflexivity).
  split; [exact C|].
  destruct (C6_year_wrap caseless (ymd 2025 1 2) _ _ _ poush_magh_parses C)
    as (_ & B & T).
  destruct T as (seq & R); [vm_compute; split; reflexivity|].
  destruct (B seq R) as (s & e & W & H & L & Y).
  exists seq, s, e. auto.
Defined.


Lemma C8_witness :
  exists start_date end_date,
    sowing_window (ymd 2024 5 1) (u "Baisakh") (u "Jestha") = Ok (start_date, end_date)
    /\ le start_date end_date = true
    /\ hd_error (days (ymd 2024 4 14) (ymd 2024 5 15)) = Some start_date
    /\ Z.of_nat (List.length (days (ymd 2024 4 14) (ymd 2024 5 15)))
       = sub_days end_date start_date + 1.
Proof.
  destruct (C8_sequence_invariant caseless (ymd 2024 5 1) _ _ _
              (days (ymd 2024 4 14) (ymd 2024 5 15)) baisakh_jestha_parses)
    as (s & e & W & O & H & L & _).
  - vm_compute. reflexivity.
  - exists s, e. auto.
Defined.

Lemma C9_witness :
  _normalize_nepali_month caseless (u "Ashwin") = Ok (u "Ashwin")
  /\ _normalize_nepali_month caseless (u "ASHWIN") = Ok (u "Ashwin")
  /\ _normalize_nepali_month caseless (u " Ashwin ") = Ok (u "Ashwin").
Proof.
  destruct (C9_canonical_names_normalize caseless (u "Ashwin") (u " ") (u " "))
    as ((_ & A) & (_ & B) & (_ & C)).
  - vm_compute. tauto.
  - reflexivity.
  - reflexivity.
  - split; [exact A|]. split; [exact B | exact C].
Defined.

Lemma C10_witness :
  get_nepali_sowing_dates caseless (ymd 2024 5 1)
    (Str (en_dash_range "Baisakh" "Jestha" ++ [Str.EN_DASH] ++ u "Ashad"))
  = Ok (days (ymd 2024 4 14) (ymd 2024 5 15)).
Proof.
  rewrite (C10_extra_segments_ignored caseless (ymd 2024 5 1)
             (en_dash_range "Baisakh" "Jestha" ++ [Str.EN_DASH] ++ u "Ashad")
             (u "Baisakh") (u "Jestha") [u "Ashad"]).
  - vm_compute. reflexivity.
  - discriminate.
  - reflexivity.
  - reflexivity.
Defined.

End Examples.

(* ================================================================= *)
(** * Further properties of the normalizer *)

Section NormalizerProperties.

Variable unicode_lower : char -> pystr.

(** The normalizer is its emptiness test followed by the strategies on the
    trimmed token. *)
Lemma normalize_strategies name :
  _normalize_nepali_month unicode_lower name =
  match name with
  | [] => Raise EmptyInput
  | _ :: _ =>
      match strategies unicode_lower (Str.strip name) with
      | Some key => Ok key
      | None => Raise (UnrecognizedMonth name)
      end
  end.
Proof.
  unfold _normalize_nepali_month, strategies. destruct name as [|c name]; [reflexivity|].
  cbv zeta. destruct (find _ _); [reflexivity|].
  destruct (dict_get aliases _); [reflexivity|].
  destruct (difflib.get_close_matches _ _ _ _); [|reflexivity].
  destruct (find _ _); reflexivity.
Qed.

(** A key of the table is not empty, is left alone by [strip], and is
    found by the exact strategy. *)
Lemma key_exact key :
  In key (keys nepali_to_english_dates_conversion) ->
  key <> [] /\ Str.strip key = key /\ strategies unicode_lower key = Some key.
Proof.
  intros I. unfold keys, nepali_to_english_dates_conversion in I.
  cbn [map fst In] in I.
  repeat (destruct I as [<-|I];
          [split; [discriminate|]; split; vm_compute; reflexivity|]).
  destruct I.
Qed.

(** X1: whatever the token, a returned month is one of the twelve keys of
    the table, so the two table look-ups of the resolver find an anchor,
    with a month in 1..12 and a day in 1..28. *)
Theorem X1_normalize_returns_a_key (name key : pystr) :
  _normalize_nepali_month unicode_lower name = Ok key ->
  In key (keys nepali_to_english_dates_conversion)
  /\ exists m d,
       dict_item nepali_to_english_dates_conversion key = Ok (m, d)
       /\ 1 <= m <= 12 /\ 1 <= d <= 28.
Proof.
  intros H. apply normalize_in_keys in H. split; [exact H|].
  pose proof (anchor_ok_keys key H) as A. unfold anchor_ok in A. unfold dict_item.
  destruct (dict_get nepali_to_english_dates_conversion key) as [[m d]|]; [|discriminate].
  exists m, d. split; [reflexivity|].
  repeat (apply andb_prop in A; destruct A as [A ?]). lia.
Qed.

(** X2: normalizing is idempotent: a month the normalizer returned is
    normalized to itself. *)
Theorem X2_normalize_idempotent (name key : pystr) :
  _normalize_nepali_month unicode_lower name = Ok key ->
  _normalize_nepali_month unicode_lower key = Ok key.
Proof.
  intros H. apply normalize_in_keys in H.
  destruct (key_exact key H) as (N & S & E).
  rewrite normalize_strategies. destruct key as [|c key]; [congruence|].
  rewrite S, E. reflexivity.
Qed.

(** X3: every spelling of the alias table is resolved to its month, also
    in upper case and between runs of whitespace. *)
Theorem X3_aliases_resolve (alias month ws1 ws2 : pystr) :
  In (alias, month) aliases ->
  forallb Str.isspace ws1 = true -> forallb Str.isspace ws2 = true ->
  _normalize_nepali_month unicode_lower alias = Ok month
  /\ _normalize_nepali_month unicode_lower (Str.upper_ascii alias) = Ok month
  /\ _normalize_nepali_month unicode_lower (ws1 ++ alias ++ ws2) = Ok month.
Proof.
  intros I W1 W2.
  assert (S : alias <> []
              /\ Str.strip (ws1 ++ alias ++ ws2) = alias
              /\ Str.strip alias = alias
              /\ strategies unicode_lower alias = Some month
              /\ _normalize_nepali_month unicode_lower (Str.upper_ascii alias) = Ok month).
  { unfold aliases in I. cbn [In] in I.
    repeat (destruct I as [I|I];
            [injection I as <- <-;
             split; [discriminate|];
             split; [apply strip_surrounded; try assumption; try reflexivity;
                     discriminate|];
             repeat split; vm_compute; reflexivity|]).
    destruct I. }
  destruct S as (N & SW & SA & E & U).
  split; [|split; [exact U|]].
  - rewrite normalize_strategies. destruct alias; [congruence|].
    rewrite SA, E. reflexivity.
  - rewrite normalize_strategies.
    destruct (ws1 ++ alias ++ ws2) as [|c l] eqn:D.
    + destruct ws1; [destruct alias; [congruence | discriminate] | discriminate].
    + rewrite SW, E. reflexivity.
Qed.

(** X4: the normalizer fails in two ways only.  It raises "Empty month
    name" exactly for the empty token.  Otherwise the message quotes the
    token as it was passed, untrimmed; then something is left after
    trimming, and no key starts with the first three characters of the
    lower-cased trimmed token. *)
Theorem X4_normalize_failures (name : pystr) (e : exn) :
  _normalize_nepali_month unicode_lower name = Raise e ->
  (name = [] /\ e = EmptyInput)
  \/ (name <> [] /\ e = UnrecognizedMonth name
      /\ Str.strip name <> []
      /\ forall key,
           In key (keys nepali_to_english_dates_conversion) ->
           Str.startswith (lower unicode_lower key)
             (firstn 3 (lower unicode_lower (Str.strip name))) = false).
Proof.
  rewrite normalize_strategies. destruct name as [|c name].
  - intros [= <-]. left. split; reflexivity.
  - destruct (strategies unicode_lower (Str.strip (c :: name))) eqn:S; [discriminate|].
    intros [= <-]. right. split; [discriminate|]. split; [reflexivity|].
    unfold strategies in S. cbv zeta in S.
    destruct (find _ _) eqn:F1 in S; [discriminate|].
    destruct (dict_get aliases _) in S; [discriminate|].
    destruct (difflib.get_close_matches _ _ _ _) in S; [|discriminate].
    split.
    + intros E. rewrite E in S. vm_compute in S. discriminate.
    + intros key I. pose proof (find_none _ _ S key I) as H. exact H.
Qed.

End NormalizerProperties.

(* ================================================================= *)
(** * Further properties of the resolver *)

Section ResolverProperties.
Import datetime calendar datetime_facts.

Variable unicode_lower : char -> pystr.

(** *** Trimmed tokens *)

Lemma lstrip_head s c t : Str.lstrip s = c :: t -> Str.isspace c = false.
Proof.
  induction s as [|x s IH]; cbn; [discriminate|].
  destruct (Str.isspace x) eqn:E; [exact IH|].
  intros [= <- _]. exact E.
Qed.

Lemma lstrip_decomp s :
  exists ws, s = ws ++ Str.lstrip s /\ forallb Str.isspace ws = true.
Proof.
  induction s as [|x s (ws & E & W)]; cbn.
  - exists []. split; reflexivity.
  - destruct (Str.isspace x) eqn:X.
    + exists (x :: ws). cbn. rewrite X, W. split; [f_equal; exact E | reflexivity].
    + exists []. split; reflexivity.
Qed.

(** What [strip] returns does not start with whitespace. *)
Lemma strip_head s c t : Str.strip s = c :: t -> Str.isspace c = false.
Proof.
  unfold Str.strip, Str.rstrip. intros H.
  destruct (lstrip_decomp (rev (Str.lstrip s))) as (ws & E & _).
  apply (f_equal (@rev char)) in E. rewrite rev_involutive, rev_app_distr, H in E.
  cbn [app] in E. apply (lstrip_head s c (t ++ rev ws)). exact E.
Qed.

Lemma strip_blank s : forallb Str.isspace (Str.strip s) = true -> Str.strip s = [].
Proof.
  destruct (Str.strip s) as [|c t] eqn:E; [reflexivity|].
  cbn. rewrite (strip_head s c t E). discriminate.
Qed.

Lemma range_tokens_stripped nep_range t1 t2 :
  range_tokens unicode_lower nep_range = Some (t1, t2) ->
  exists x y, t1 = Str.strip x /\ t2 = Str.strip y.
Proof.
  unfold range_tokens. destruct nep_range as [|[|c s]|]; try discriminate.
  cbv zeta. destruct (not_applicable _); [discriminate|].
  destruct (_ <? 2)%nat; [discriminate|].
  intros [= <- <-]. eauto.
Qed.

(** X5: the month tokens the resolver passes on are trimmed, so a token
    made of whitespace only is the empty token; a range whose first month
    is blank, or whose second month is blank after a first month that
    normalizes, raises "Empty month name". *)
Theorem X5_blank_month_raises (today : date) (nep_range : cell) (t1 t2 : pystr) :
  range_tokens unicode_lower nep_range = Some (t1, t2) ->
  (forallb Str.isspace t1 = true -> t1 = [])
  /\ (forallb Str.isspace t2 = true -> t2 = [])
  /\ (t1 = [] ->
      get_nepali_sowing_dates unicode_lower today nep_range = Raise EmptyInput)
  /\ (t2 = [] ->
      forall k1, _normalize_nepali_month unicode_lower t1 = Ok k1 ->
      get_nepali_sowing_dates unicode_lower today nep_range = Raise EmptyInput).
Proof.
  intros T. destruct (range_tokens_stripped _ _ _ T) as (x & y & E1 & E2).
  split; [subst t1; apply strip_blank|].
  split; [subst t2; apply strip_blank|].
  rewrite resolver_stages, T. split.
  - intros ->. reflexivity.
  - intros -> k1 N. rewrite N. reflexivity.
Qed.

(** *** Errors *)

Lemma new_anchor y m d :
  1 <= m <= 12 -> 1 <= d <= 28 ->
  new y m d = if (MINYEAR <=? y) && (y <=? MAXYEAR) then Ok (mkDate y m d)
              else Raise (year_out_of_range y).
Proof.
  intros Hm Hd. unfold new, year_out_of_range.
  destruct ((MINYEAR <=? y) && (y <=? MAXYEAR)); cbn [negb]; [|reflexivity].
  replace ((1 <=? m) && (m <=? 12)) with true
    by (symmetry; apply andb_true_intro; split; lia).
  cbn [negb]. rewrite days_in_month_dim.
  pose proof (months_spec (_is_leap y) m Hm) as (_ & D & _).
  replace ((1 <=? d) && (d <=? dim (_is_leap y) m)) with true
    by (symmetry; apply andb_true_intro; split; lia).
  reflexivity.
Qed.

Lemma anchor_of_bounds k :
  In k (keys nepali_to_english_dates_conversion) ->
  dict_item nepali_to_english_dates_conversion k = Ok (anchor_of k)
  /\ 1 <= fst (anchor_of k) <= 12 /\ 1 <= snd (anchor_of k) <= 28.
Proof.
  intros I. pose proof (anchor_ok_keys k I) as A.
  split; [apply anchor_lookup; exact A|].
  unfold anchor_ok, anchor_of in *.
  destruct (dict_get nepali_to_english_dates_conversion k) as [[m d]|]; [|discriminate].
  repeat (apply andb_prop in A; destruct A as [A ?]). cbn [fst snd]. lia.
Qed.

(** The window of two keys of the table fails only on a year. *)
Lemma sowing_window_raises today k1 k2 e :
  In k1 (keys nepali_to_english_dates_conversion) ->
  In k2 (keys nepali_to_english_dates_conversion) ->
  sowing_window today k1 k2 = Raise e ->
  exists y, e = year_out_of_range y /\ ~ (MINYEAR <= y <= MAXYEAR)
            /\ year today - 1 <= y <= year today + 1.
Proof.
  intros I1 I2. destruct (anchor_of_bounds k1 I1) as (L1 & M1 & D1).
  destruct (anchor_of_bounds k2 I2) as (L2 & M2 & D2).
  unfold sowing_window. rewrite L1, L2. cbn [bind].
  destruct (anchor_of k1) as [m1 d1], (anchor_of k2) as [m2 d2]. cbn [fst snd] in *.
  assert (G : forall y m d (k : date -> result (date * date)),
             1 <= m <= 12 -> 1 <= d <= 28 ->
             year today - 1 <= y <= year today + 1 ->
             (forall x, k x = Raise e ->
                exists y, e = year_out_of_range y /\ ~ (MINYEAR <= y <= MAXYEAR)
                          /\ year today - 1 <= y <= year today + 1) ->
             bind (new y m d) k = Raise e ->
             exists y, e = year_out_of_range y /\ ~ (MINYEAR <= y <= MAXYEAR)
                       /\ year today - 1 <= y <= year today + 1).
  { intros y m d k Hm Hd Hy K. rewrite (new_anchor y m d Hm Hd).
    destruct (Z.leb_spec MINYEAR y), (Z.leb_spec y MAXYEAR); cbn [andb bind];
      try (apply K);
      intros [= <-]; exists y; split; try reflexivity; split; try lia. }
  apply G; try assumption; [lia|]. intros start1.
  apply G; try assumption; [destruct (m2 <? m1); lia|]. intros end1.
  apply G; try assumption; [lia|]. intros start2.
  apply G; try assumption; [destruct (m2 <? m1); lia|]. intros end2.
  destruct (le start1 today && le today end1); [discriminate|].
  destruct (le start2 today && le today end2); discriminate.
Qed.

(** X6: the resolver raises nothing but the two errors of the normalizer,
    the second one quoting a token that is not empty, and the year error
    of [datetime.date], for a year next to [today]'s that is outside
    1..9999.  It never raises a [KeyError] or an [OverflowError]. *)
Theorem X6_resolver_errors (today : date) (nep_range : cell) (e : exn) :
  get_nepali_sowing_dates unicode_lower today nep_range = Raise e ->
  e = EmptyInput
  \/ (exists t, t <> [] /\ e = UnrecognizedMonth t)
  \/ (exists y, e = year_out_of_range y /\ ~ (MINYEAR <= y <= MAXYEAR)
                /\ year today - 1 <= y <= year today + 1).
Proof.
  rewrite resolver_stages.
  destruct (range_tokens unicode_lower nep_range) as [[t1 t2]|]; [|discriminate].
  assert (N : forall t e', _normalize_nepali_month unicode_lower t = Raise e' ->
              e' = EmptyInput \/ (exists t, t <> [] /\ e' = UnrecognizedMonth t)).
  { intros t e'. rewrite normalize_strategies. destruct t as [|c t].
    - intros [= <-]. left. reflexivity.
    - destruct (strategies _ _); [discriminate|]. intros [= <-]. right.
      exists (c :: t). split; [discriminate | reflexivity]. }
  destruct (_normalize_nepali_month unicode_lower t1) as [k1|e1] eqn:N1; cbn [bind].
  2:{ intros [= <-]. destruct (N _ _ N1) as [H|H]; tauto. }
  destruct (_normalize_nepali_month unicode_lower t2) as [k2|e2] eqn:N2; cbn [bind].
  2:{ intros [= <-]. destruct (N _ _ N2) as [H|H]; tauto. }
  apply normalize_in_keys in N1, N2.
  destruct (sowing_window today k1 k2) as [w|e3] eqn:W; cbn [bind].
  - destruct (sowing_window_inv _ _ _ _ W) as (_ & _ & _ & V1 & V2).
    destruct w as [s e0]. cbn [fst snd] in *.
    rewrite (enumerate_window_days s e0 V1 V2). discriminate.
  - intros [= <-]. right. right. exact (sowing_window_raises today k1 k2 e3 N1 N2 W).
Qed.

(** *** The two windows *)

Lemma le_iff a b :
  le a b = true <->
  year a < year b
  \/ (year a = year b
      /\ (month a < month b \/ (month a = month b /\ day a <= day b))).
Proof.
  unfold le.
  destruct (Z.ltb_spec (year a) (year b)), (Z.eqb_spec (year a) (year b)),
    (Z.ltb_spec (month a) (month b)), (Z.eqb_spec (month a) (month b)),
    (Z.leb_spec (day a) (day b)); cbn [orb andb]; split; intros; try lia;
    try discriminate; try reflexivity.
Qed.

(** X7: the two candidate windows never overlap: Window B ends before
    Window A starts, so a day of Window A is not in Window B and the order
    of the two tests does not matter. *)
Theorem X7_windows_disjoint (today : date) (current_year : Z) (a1 a2 : Z * Z) :
  in_window today (window_A current_year a1 a2) = true ->
  in_window today (window_B current_year a1 a2) = false.
Proof.
  unfold in_window, window_A, window_B, crosses_year, ymd. cbn [fst snd].
  intros A. apply andb_prop in A. destruct A as [A1 A2].
  destruct (le _ today && le today _) eqn:B; [|reflexivity].
  apply andb_prop in B. destruct B as [B1 B2].
  apply le_iff in A1, A2, B1, B2. cbn [year month day] in *.
  destruct (Z.ltb_spec (fst a2) (fst a1)); lia.
Qed.

(** *** The sequence *)

Lemma days_In s e d :
  valid s -> valid e ->
  (In d (days s e) <-> valid d /\ toordinal s <= toordinal d <= toordinal e).
Proof.
  intros Vs Ve. pose proof (toordinal_bounds s Vs) as Bs.
  pose proof (toordinal_bounds e Ve) as Be.
  unfold days, sub_days. split.
  - intros I. apply in_map_iff in I. destruct I as (i & <- & Hi).
    apply range_In in Hi.
    destruct (date_of_ordinal_spec (toordinal s + i) ltac:(lia)) as (_ & V & T).
    split; [exact V | lia].
  - intros (Vd & Hd). apply in_map_iff. exists (toordinal d - toordinal s). split.
    + replace (toordinal s + (toordinal d - toordinal s)) with (toordinal d) by lia.
      apply date_of_ordinal_toordinal, Vd.
    + apply In_range. lia.
Qed.

Lemma in_window_ordinal today w :
  valid today -> valid (fst w) -> valid (snd w) ->
  (in_window today w = true
   <-> toordinal (fst w) <= toordinal today <= toordinal (snd w)).
Proof.
  intros Vt V1 V2. unfold in_window. rewrite andb_true_iff.
  rewrite (le_toordinal _ _ V1 Vt), (le_toordinal _ _ Vt V2). tauto.
Qed.

(** X8: for a parseable range that resolves, [today] is one of the
    returned dates exactly when it lies in one of the two candidate
    windows; out of season the dates returned do not include [today]. *)
Theorem X8_today_in_season (today : date) (nep_range : cell) (k1 k2 : pystr)
    (seq : list date) :
  parses unicode_lower nep_range k1 k2 ->
  get_nepali_sowing_dates unicode_lower today nep_range = Ok seq ->
  valid today ->
  (In today seq
   <-> in_window today (window_A (year today) (anchor_of k1) (anchor_of k2))
       || in_window today (window_B (year today) (anchor_of k1) (anchor_of k2)) = true).
Proof.
  intros P R Vt.
  destruct (resolved_sequence unicode_lower today _ _ _ _ P R) as (_ & V1 & V2 & _ & ->).
  rewrite (days_In _ _ today V1 V2).
  pose proof (in_window_ordinal today _ Vt V1 V2) as W.
  unfold selected in *.
  destruct (in_window today (window_A _ _ _)) eqn:A.
  - cbn [orb]. tauto.
  - destruct (in_window today (window_B _ _ _)) eqn:B; cbn [orb].
    + tauto.
    + rewrite A in W. split; [|discriminate]. intros (_ & H). apply W in H. discriminate.
Qed.

Lemma crossing_fits_keys k1 k2 :
  In k1 (keys nepali_to_english_dates_conversion) ->
  In k2 (keys nepali_to_english_dates_conversion) ->
  crossing_fits k1 k2 = true.
Proof.
  intros H1 H2.
  assert (A : forallb (fun a => forallb (crossing_fits a)
                                   (keys nepali_to_english_dates_conversion))
                (keys nepali_to_english_dates_conversion) = true)
    by (vm_compute; reflexivity).
  rewrite forallb_forall in A. specialize (A k1 H1).
  rewrite forallb_forall in A. apply A, H2.
Qed.

(** The selected window starts in [today]'s year or the year before. *)
Lemma selected_form today a1 a2 :
  exists y,
    (y = year today \/ y = year today - 1)
    /\ selected today a1 a2
       = (mkDate y (fst a1) (snd a1),
          mkDate (if crosses_year a1 a2 then y + 1 else y) (fst a2) (snd a2)).
Proof.
  unfold selected, window_A, window_B, ymd.
  destruct (in_window today _).
  - exists (year today). split; [tauto | reflexivity].
  - destruct (in_window today _).
    + exists (year today - 1). split; [tauto|].
      replace (year today - 1 + 1) with (year today) by lia. reflexivity.
    + exists (year today). split; [tauto | reflexivity].
Qed.

(** X9: the sequence returned for a parseable range has at least one and
    at most 366 dates. *)
Theorem X9_sequence_length (today : date) (nep_range : cell) (k1 k2 : pystr)
    (seq : list date) :
  parses unicode_lower nep_range k1 k2 ->
  get_nepali_sowing_dates unicode_lower today nep_range = Ok seq ->
  (1 <= List.length seq <= 366)%nat.
Proof.
  intros P R.
  destruct (parses_stages unicode_lower today _ _ _ P) as (_ & I1 & I2).
  destruct (resolved_sequence unicode_lower today _ _ _ _ P R) as (_ & V1 & V2 & O & ->).
  pose proof (crossing_fits_keys k1 k2 I1 I2) as C. unfold crossing_fits in C.
  destruct (selected_form today (anchor_of k1) (anchor_of k2)) as (y & _ & E).
  rewrite E in *. clear E. unfold crosses_year in *.
  destruct (anchor_of k1) as [m1 d1], (anchor_of k2) as [m2 d2]. cbn [fst snd] in *.
  pose proof (days_length _ _ O) as L. unfold sub_days in L.
  enough (toordinal (mkDate (if m2 <? m1 then y + 1 else y) m2 d2)
          - toordinal (mkDate y m1 d1) <= 365) by lia.
  clear L O. destruct V1 as (_ & Hm1 & Hd1), V2 as (_ & Hm2 & Hd2).
  unfold toordinal, _ymd2ord in *. cbn [year month day] in *.
  rewrite days_in_month_dim in Hd1, Hd2. rewrite !days_before_month_dbm.
  destruct (m2 <? m1); cbn [negb orb] in C.
  - cbn [forallb] in C. rewrite !andb_true_r in C.
    rewrite (days_before_year_succ y).
    assert (G : dbm (_is_leap (y + 1)) m2 + d2 + (if _is_leap y then 1 else 0)
                <= dbm (_is_leap y) m1 + d1).
    { repeat (apply andb_prop in C; destruct C as [C ?]).
      destruct (_is_leap y), (_is_leap (y + 1)); lia. }
    lia.
  - pose proof (day_of_year_bounds _ _ _ Hm1 Hd1).
    pose proof (day_of_year_bounds _ _ _ Hm2 Hd2).
    destruct (_is_leap y); lia.
Qed.

(** X10: every date returned for a parseable range is a date object
    between the start and the end of the resolved window, in [today]'s
    year, the year before or the year after. *)
Theorem X10_dates_within_window (today : date) (nep_range : cell) (k1 k2 : pystr)
    (seq : list date) (d : date) :
  parses unicode_lower nep_range k1 k2 ->
  get_nepali_sowing_dates unicode_lower today nep_range = Ok seq ->
  In d seq ->
  exists start_date end_date,
    sowing_window today k1 k2 = Ok (start_date, end_date)
    /\ valid d
    /\ le start_date d = true /\ le d end_date = true
    /\ year today - 1 <= year d <= year today + 1.
Proof.
  intros P R I.
  destruct (resolved_sequence unicode_lower today _ _ _ _ P R) as (W & V1 & V2 & _ & ->).
  destruct (selected_form today (anchor_of k1) (anchor_of k2)) as (y & Y & E).
  destruct (selected today (anchor_of k1) (anchor_of k2)) as [s e].
  cbn [fst snd] in *. injection E as -> ->.
  apply (days_In _ _ d V1 V2) in I. destruct I as (Vd & Hd).
  eexists _, _. split; [exact W|]. split; [exact Vd|].
  assert (L1 : le (mkDate y (fst (anchor_of k1)) (snd (anchor_of k1))) d = true)
    by (apply le_toordinal; [assumption..|lia]).
  assert (L2 : le d (mkDate (if crosses_year (anchor_of k1) (anchor_of k2)
                             then y + 1 else y)
                            (fst (anchor_of k2)) (snd (anchor_of k2))) = true)
    by (apply le_toordinal; [assumption..|lia]).
  split; [exact L1|]. split; [exact L2|].
  apply le_iff in L1, L2. cbn [year month day] in *.
  destruct (crosses_year _ _); lia.
Qed.

(** X11: the dates depend on the range through its two normalized months
    only: two ranges, however spelled, that normalize to the same pair of
    months resolve to the same result on the same day. *)
Theorem X11_same_months_same_dates (today : date) (r1 r2 : cell) (k1 k2 : pystr) :
  parses unicode_lower r1 k1 k2 ->
  parses unicode_lower r2 k1 k2 ->
  get_nepali_sowing_dates unicode_lower today r1
  = get_nepali_sowing_dates unicode_lower today r2.
Proof.
  intros P1 P2.
  destruct (parses_stages unicode_lower today _ _ _ P1) as (-> & _).
  destruct (parses_stages unicode_lower today _ _ _ P2) as (-> & _).
  reflexivity.
Qed.

(** *** Separators *)

Lemma same_separator_isspace c c' :
  same_separator c c' -> Str.isspace c = Str.isspace c'.
Proof. intros [->|(_ & _ & -> & ->)]; reflexivity. Qed.

Lemma lstrip_same a b :
  Forall2 same_separator a b ->
  Forall2 same_separator (Str.lstrip a) (Str.lstrip b).
Proof.
  induction 1 as [|c c' a b S F IH]; cbn; [constructor|].
  rewrite <- (same_separator_isspace c c' S).
  destruct (Str.isspace c); [exact IH | constructor; assumption].
Qed.

Lemma rev_same a b :
  Forall2 same_separator a b -> Forall2 same_separator (rev a) (rev b).
Proof.
  induction 1 as [|c c' a b S F IH]; cbn; [constructor|].
  apply Forall2_app; [exact IH | constructor; [exact S | constructor]].
Qed.

Lemma strip_same a b :
  Forall2 same_separator a b ->
  Forall2 same_separator (Str.strip a) (Str.strip b).
Proof.
  intros F. unfold Str.strip, Str.rstrip.
  apply rev_same, lstrip_same, rev_same, lstrip_same, F.
Qed.

Lemma sub_dashes_same a b :
  Forall2 same_separator a b -> sub_dashes a = sub_dashes b.
Proof.
  induction 1 as [|c c' a b S F IH]; cbn; [reflexivity|].
  f_equal; [|exact IH].
  destruct S as [->|(-> & -> & _)]; reflexivity.
Qed.

(** X12: the resolver does not tell the em-dash, the minus sign and the
    en-dash apart, nor any other character from U+2013 to U+2212 that is
    not whitespace: replacing any of them by any other leaves the result
    unchanged. *)
Theorem X12_dash_class_interchangeable (today : date) (raw raw' : pystr) :
  Forall2 same_separator raw raw' ->
  get_nepali_sowing_dates unicode_lower today (Str raw)
  = get_nepali_sowing_dates unicode_lower today (Str raw').
Proof.
  intros F. pose proof (sub_dashes_same _ _ (strip_same _ _ F)) as E.
  unfold get_nepali_sowing_dates.
  destruct F as [|c c' a b S F]; [reflexivity|].
  cbv beta iota zeta. rewrite E. reflexivity.
Qed.

End ResolverProperties.

(* ================================================================= *)
(** * Further properties of the batch and of the form *)

Section BatchProperties.

Variable unicode_lower : char -> pystr.
Variable df : list row.
Variable clock : nat -> datetime.date.

Lemma dict_get_keys {V} (d : list (pystr * V)) k :
  dict_get d k <> None <-> In k (keys d).
Proof.
  induction d as [|[k' v] d IH]; cbn.
  - tauto.
  - destruct (Str.eqb k' k) eqn:E.
    + apply str_eqb_eq in E. split; [auto | discriminate].
    + rewrite IH. split; [auto|]. intros [->|H]; [|exact H].
      rewrite str_eqb_refl in E. discriminate.
Qed.

Lemma keys_dict_set_In {V} (d : list (pystr * V)) k v key :
  In key (keys (dict_set d k v)) <-> In key (keys d) \/ key = k.
Proof.
  induction d as [|[k' v'] d IH]; cbn [dict_set].
  - cbn. intuition congruence.
  - destruct (Str.eqb k' k) eqn:E.
    + apply str_eqb_eq in E. subst k'. cbn. intuition congruence.
    + change (keys ((k', v') :: dict_set d k v)) with (k' :: keys (dict_set d k v)).
      change (keys ((k', v') :: d)) with (k' :: keys d).
      cbn [In]. rewrite IH. tauto.
Qed.

Lemma keys_dict_set_NoDup {V} (d : list (pystr * V)) k v :
  NoDup (keys d) -> NoDup (keys (dict_set d k v)).
Proof.
  induction d as [|[k' v'] d IH]; cbn [dict_set]; intros N.
  - cbn. repeat constructor. intros [].
  - change (keys ((k', v') :: d)) with (k' :: keys d) in N.
    apply NoDup_cons_iff in N. destruct N as [N1 N2].
    destruct (Str.eqb k' k) eqn:E.
    + change (NoDup (k' :: keys d)). constructor; assumption.
    + change (NoDup (k' :: keys (dict_set d k v))). constructor; [|apply IH, N2].
      rewrite keys_dict_set_In. intros [H| ->]; [exact (N1 H)|].
      rewrite str_eqb_refl in E. discriminate.
Qed.

(** The loop returns a dictionary or a message, never both, never
    neither; a message is not empty. *)
Lemma crops_loop_shape col crops : forall k result,
  (exists d, crops_loop unicode_lower clock k col crops result = (Some d, None))
  \/ (exists msg, crops_loop unicode_lower clock k col crops result = (None, Some msg)
                  /\ msg <> []).
Proof.
  induction crops as [|r crops IH]; intros k result; cbn [crops_loop].
  - left. eauto.
  - destruct (get_nepali_sowing_dates _ _ _).
    + apply IH.
    + right. eexists. split; [reflexivity | discriminate].
Qed.

Lemma get_crops_shape place_name :
  (exists d, get_crops_for_place unicode_lower df clock place_name = (Some d, None))
  \/ (exists msg,
        get_crops_for_place unicode_lower df clock place_name = (None, Some msg)
        /\ msg <> []).
Proof.
  unfold get_crops_for_place.
  destruct (place_column (lower unicode_lower place_name)).
  - apply crops_loop_shape.
  - right. eexists. split; [reflexivity | discriminate].
Qed.

(** X13: the call returns either a dictionary and no error, or no
    dictionary and an error message that is not empty; so the test
    [if error:] of the caller separates the two cases. *)
Theorem X13_result_or_error (place_name : pystr) :
  (exists d, get_crops_for_place unicode_lower df clock place_name = (Some d, None))
  \/ (exists msg,
        get_crops_for_place unicode_lower df clock place_name = (None, Some msg)
        /\ msg <> []).
Proof.
  unfold get_crops_for_place.
  destruct (place_column (lower unicode_lower place_name)) as [col|].
  - destruct (crops_loop_shape col (filter (fun r => notna (sowing r col)) df) 0%nat [])
      as [(d & E)|(msg & E & N)]; [left | right]; eauto.
  - right. eexists. split; [reflexivity | discriminate].
Qed.

(** What a successful run of the loop adds to the dictionary it started
    with. *)
Lemma crops_loop_dictionary col crops : forall k result d,
  NoDup (keys result) ->
  crops_loop unicode_lower clock k col crops result = (Some d, None) ->
  NoDup (keys d)
  /\ (forall key, In key (keys d)
                  <-> In key (keys result) \/ exists r, In r crops /\ label r = key)
  /\ (forall key, (forall r, In r crops -> label r <> key) ->
                  dict_get d key = dict_get result key)
  /\ (forall j r dates,
        nth_error crops j = Some r ->
        get_nepali_sowing_dates unicode_lower (clock (k + j)) (sowing r col) = Ok dates ->
        (forall j' r', (j < j')%nat -> nth_error crops j' = Some r' ->
                       label r' <> label r) ->
        dict_get d (label r) = Some dates).
Proof.
  induction crops as [|r0 crops IH]; intros k result d N; cbn [crops_loop].
  - intros [= <-]. split; [exact N|]. split; [|split].
    + intros key. split; [auto|]. intros [H|(r & [] & _)]. exact H.
    + reflexivity.
    + intros j r dates H. destruct j; discriminate.
  - destruct (get_nepali_sowing_dates unicode_lower (clock k) (sowing r0 col))
      as [dates0|] eqn:R0; [|discriminate].
    intros L. fold (label r0) in L.
    destruct (IH _ _ _ (keys_dict_set_NoDup result (label r0) dates0 N) L)
      as (ND & K & B & A).
    split; [exact ND|]. split; [|split].
    + intros key. rewrite K, keys_dict_set_In. split.
      * intros [[H| ->]|(r & I & E)]; eauto.
        -- right. exists r0. split; [left|]; reflexivity.
        -- right. exists r. split; [right|]; assumption.
      * intros [H|(r & [<-|I] & E)]; eauto.
    + intros key H. rewrite B by (intros r I; apply H; right; exact I).
      apply dict_get_set_other. apply H. left. reflexivity.
    + intros j r dates Hj R Later. destruct j as [|j].
      * injection Hj as ->. rewrite Nat.add_0_r, R0 in R. injection R as ->.
        rewrite B.
        -- apply dict_get_set_same.
        -- intros r' I. apply In_nth_error in I. destruct I as (j' & I).
           apply (Later (S j') r'); [lia | exact I].
      * apply (A j r dates Hj).
        -- replace (S k + j)%nat with (k + S j)%nat by lia. exact R.
        -- intros j' r' Hlt Hj'. apply (Later (S j') r'); [lia | exact Hj'].
Qed.

(** X14: in the dictionary of a successful call the keys are the labels
    of the crops of the column, each once; when several rows carry the
    same crop and variety, the dates stored are those of the last such
    row. *)
Theorem X14_one_entry_per_label (place_name : pystr) (col : column)
    (d : list (pystr * list datetime.date)) :
  place_column (lower unicode_lower place_name) = Some col ->
  get_crops_for_place unicode_lower df clock place_name = (Some d, None) ->
  let crops := filter (fun r => notna (sowing r col)) df in
  NoDup (keys d)
  /\ (forall key, In key (keys d) <-> exists r, In r crops /\ label r = key)
  /\ (forall j r dates,
        nth_error crops j = Some r ->
        get_nepali_sowing_dates unicode_lower (clock j) (sowing r col) = Ok dates ->
        (forall j' r', (j < j')%nat -> nth_error crops j' = Some r' ->
                       label r' <> label r) ->
        dict_get d (label r) = Some dates).
Proof.
  intros P L crops. unfold get_crops_for_place in L. rewrite P in L. fold crops in L.
  destruct (crops_loop_dictionary col crops 0%nat [] d (NoDup_nil _) L)
    as (ND & K & _ & A).
  split; [exact ND|]. split; [|exact A].
  intros key. rewrite K. cbn. tauto.
Qed.

(** X15: the callback of the form never calls [items] on [None]; it
    returns with the entry untouched and the old text gone: the text is
    the error message alone when the call gave one ("Place not recognized"
    for a place without keyword), and the blocks of the crops
    otherwise. *)
Theorem X15_form_shows_error_or_crops (w : forgui.widgets) :
  exists text,
    forgui.enter_yourinfo unicode_lower df clock w
    = forgui.Returned (forgui.mkWidgets (forgui.entry w) text)
    /\ ((exists msg,
           get_crops_for_place unicode_lower df clock (forgui.entry w) = (None, Some msg)
           /\ text = msg)
        \/ (exists crops,
              get_crops_for_place unicode_lower df clock (forgui.entry w)
              = (Some crops, None)
              /\ text = flat_map forgui.crop_block crops))
    /\ (place_column (lower unicode_lower (forgui.entry w)) = None ->
        text = u "Place not recognized").
Proof.
  unfold forgui.enter_yourinfo.
  destruct (get_crops_shape (forgui.entry w)) as [(d & E)|(msg & E & N)].
  - rewrite E. cbn. eexists. split; [reflexivity|]. split; [right; eauto|].
    intros P. unfold get_crops_for_place in E. rewrite P in E. discriminate.
  - rewrite E. destruct msg as [|c msg]; [exfalso; apply N; reflexivity|]. cbn.
    eexists. split; [reflexivity|]. split; [left; eauto|].
    intros P. unfold get_crops_for_place in E. rewrite P in E.
    injection E as <- <-. reflexivity.
Qed.

End BatchProperties.

(* ================================================================= *)
(** * Keywords inside a cell or a place name *)

Section KeywordProperties.

Variable unicode_lower : char -> pystr.

(** Decides the comparisons of a goal one by one, each from the bounds
    in the context. *)
Ltac decide_comparisons :=
  repeat match goal with
         | |- context [?a <=? ?b] => destruct (Z.leb_spec a b); try lia
         | |- context [?a <? ?b] => destruct (Z.ltb_spec a b); try lia
         | |- context [?a =? ?b] => destruct (Z.eqb_spec a b); try lia
         end;
  try reflexivity.

Lemma startswith_app s t : Str.startswith (s ++ t) s = true.
Proof.
  induction s as [|c s IH]; cbn; [destruct t; reflexivity|].
  rewrite Z.eqb_refl. exact IH.
Qed.

Lemma contains_app pre sub post : Str.contains sub (pre ++ sub ++ post) = true.
Proof.
  induction pre as [|c pre IH].
  - cbn [app]. destruct (sub ++ post) eqn:E; cbn [Str.contains]; rewrite <- ?E;
      rewrite startswith_app; reflexivity.
  - cbn [app Str.contains]. rewrite IH. apply orb_true_r.
Qed.

Lemma lower_app a b :
  lower unicode_lower (a ++ b) = lower unicode_lower a ++ lower unicode_lower b.
Proof. unfold lower, Str.lower. apply flat_map_app. Qed.

Lemma sub_dashes_app a b : sub_dashes (a ++ b) = sub_dashes a ++ sub_dashes b.
Proof. apply map_app. Qed.

(** A keyword written in any letter case lowers to the keyword, holds no
    character of the dash class, and has no whitespace at its ends. *)
Lemma case_variant_facts kw word :
  plain_keyword kw = true -> Forall2 ascii_case_variant word kw ->
  lower unicode_lower word = kw /\ sub_dashes word = word
  /\ exists c t c' t',
       word = c :: t /\ Str.isspace c = false
       /\ rev word = c' :: t' /\ Str.isspace c' = false.
Proof.
  unfold plain_keyword. intros K F. apply andb_prop in K. destruct K as [K E].
  assert (G : Forall2 (fun c p => Str.lower_char unicode_lower c = [p]
                                  /\ in_dash_class c = false
                                  /\ (Str.isspace p = false -> Str.isspace c = false))
                      word kw).
  { clear E. induction F as [|c p word kw V F IH]; [constructor|].
    cbn [forallb] in K. apply andb_prop in K. destruct K as [Kp K].
    constructor; [|apply IH, K].
    apply andb_prop in Kp. destruct Kp as [P1 P2].
    apply Z.ltb_lt in P1. apply negb_true_iff in P2.
    unfold Str.lower_char, in_dash_class, Str.is_dash, Str.isspace, Str.EM_DASH,
      Str.MINUS_SIGN, Str.EN_DASH, Str.HYPHEN.
    destruct V as [->|(U & ->)].
    - rewrite P2. split; [|split].
      + decide_comparisons.
      + decide_comparisons.
      + intros S. exact S.
    - split; [|split; [|intros _]]; decide_comparisons. }
  assert (L : lower unicode_lower word = kw /\ sub_dashes word = word).
  { clear E K F. induction G as [|c p w0 k0 (Hl & Hd & _) G (IH1 & IH2)].
    - split; reflexivity.
    - split.
      + change (Str.lower_char unicode_lower c ++ lower unicode_lower w0 = p :: k0).
        rewrite Hl, IH1. reflexivity.
      + cbn [sub_dashes map]. rewrite Hd. f_equal. exact IH2. }
  destruct L as (L1 & L2). split; [exact L1|]. split; [exact L2|].
  destruct kw as [|p kw]; [discriminate|].
  apply andb_prop in E. destruct E as [E1 E2].
  apply negb_true_iff in E1, E2.
  assert (R : Forall2 (fun c p => Str.lower_char unicode_lower c = [p]
                                  /\ in_dash_class c = false
                                  /\ (Str.isspace p = false -> Str.isspace c = false))
                      (rev word) (rev (p :: kw))).
  { clear -G. induction G as [|c q w0 k0 H G IH]; [constructor|].
    cbn [rev]. apply Forall2_app; [exact IH | constructor; [exact H | constructor]]. }
  assert (LR : exists q t, rev (p :: kw) = q :: t /\ Str.isspace q = false).
  { destruct (@exists_last _ (p :: kw) ltac:(discriminate)) as (l' & q & El).
    rewrite El in *. rewrite last_last in E2. rewrite rev_app_distr. cbn. eauto. }
  destruct LR as (q & t & Eq & Sq).
  inversion G as [|c ? w' ? (_ & _ & Hc) _]; subst.
  rewrite Eq in R. inversion R as [|c' ? t' ? (_ & _ & Hc') _ Erev]; subst.
  exists c, w', c', t'. repeat split; auto.
Qed.

Lemma lstrip_app_nonspace pre c t :
  Str.isspace c = false -> Str.lstrip (pre ++ c :: t) = Str.lstrip pre ++ c :: t.
Proof.
  intros H. induction pre as [|x pre IH]; cbn.
  - rewrite H. reflexivity.
  - destruct (Str.isspace x); [exact IH | reflexivity].
Qed.

(** Trimming keeps a word that has no whitespace at its ends. *)
Lemma strip_keeps_word pre word post c t c' t' :
  word = c :: t -> Str.isspace c = false ->
  rev word = c' :: t' -> Str.isspace c' = false ->
  exists a b, Str.strip (pre ++ word ++ post) = a ++ word ++ b.
Proof.
  intros W Sc R Sc'.
  exists (Str.lstrip pre), (rev (Str.lstrip (rev post))).
  unfold Str.strip, Str.rstrip.
  replace (pre ++ word ++ post) with (pre ++ c :: (t ++ post))
    by (rewrite W; reflexivity).
  rewrite (lstrip_app_nonspace pre c (t ++ post) Sc).
  replace (c :: t ++ post) with (word ++ post) by (rewrite W; reflexivity).
  rewrite !rev_app_distr, R, <- app_assoc. cbn [app].
  rewrite (lstrip_app_nonspace (rev post) c' (t' ++ rev (Str.lstrip pre)) Sc').
  replace (c' :: t' ++ rev (Str.lstrip pre)) with (rev word ++ rev (Str.lstrip pre))
    by (rewrite R; reflexivity).
  rewrite !rev_app_distr, !rev_involutive, <- app_assoc. reflexivity.
Qed.

(** X16: a cell that contains "not recommend", in any letter case and at
    any place, resolves to the empty list, whatever else it contains: a
    note after a valid range hides the range. *)
Theorem X16_not_recommend_anywhere (today : datetime.date) (pre word post : pystr) :
  Forall2 ascii_case_variant word (u "not recommend") ->
  get_nepali_sowing_dates unicode_lower today (Str (pre ++ word ++ post)) = Ok [].
Proof.
  intros F.
  destruct (case_variant_facts (u "not recommend") word eq_refl F)
    as (L & D & c & t & c' & t' & W & Sc & R & Sc').
  destruct (strip_keeps_word pre word post c t c' t' W Sc R Sc') as (a & b & S).
  unfold get_nepali_sowing_dates.
  destruct (pre ++ word ++ post) as [|x l] eqn:E; [reflexivity|].
  cbv beta iota zeta. rewrite S.
  rewrite !sub_dashes_app, D, !lower_app, L.
  unfold not_applicable. rewrite contains_app. reflexivity.
Qed.

(** X17: the column is chosen by a keyword found anywhere in the place
    name, in any letter case; "high" is looked for first, so a name that
    holds it uses the high-hill column whatever other keyword it holds. *)
Theorem X17_high_keyword_anywhere (pre word post : pystr) :
  Forall2 ascii_case_variant word (u "high") ->
  place_column (lower unicode_lower (pre ++ word ++ post)) = Some High_Hill_Sowing.
Proof.
  intros F.
  destruct (case_variant_facts (u "high") word eq_refl F) as (L & _).
  rewrite !lower_app, L. unfold place_column. rewrite contains_app. reflexivity.
Qed.

End KeywordProperties.

(* ================================================================= *)
(** * The further properties at concrete inputs *)

Section FurtherExamples.
Import datetime.

(** Proves that a word is a keyword in mixed letter case. *)
Ltac case_variants :=
  match goal with
  | |- Forall2 ?R ?a ?b =>
      let a' := eval vm_compute in a in
      let b' := eval vm_compute in b in
      change (Forall2 R a' b')
  end;
  repeat (constructor;
          [first [left; reflexivity | right; split; [lia | reflexivity]]|]);
  constructor.

Lemma X1_witness :
  In (u "Shrawan") (keys nepali_to_english_dates_conversion)
  /\ exists m d,
       dict_item nepali_to_english_dates_conversion (u "Shrawan") = Ok (m, d)
       /\ 1 <= m <= 12 /\ 1 <= d <= 28.
Proof.
  apply (X1_normalize_returns_a_key caseless (u "Sawan") (u "Shrawan")).
  vm_compute. reflexivity.
Defined.

Lemma X2_witness :
  _normalize_nepali_month caseless (u "Mansir") = Ok (u "Mangsir")
  /\ _normalize_nepali_month caseless (u "Mangsir") = Ok (u "Mangsir").
Proof.
  assert (H : _normalize_nepali_month caseless (u "Mansir") = Ok (u "Mangsir"))
    by (vm_compute; reflexivity).
  split; [exact H|].
  exact (X2_normalize_idempotent caseless (u "Mansir") (u "Mangsir") H).
Defined.

Lemma X3_witness :
  _normalize_nepali_month caseless (u "asoj") = Ok (u "Ashwin")
  /\ _normalize_nepali_month caseless (u "ASOJ") = Ok (u "Ashwin")
  /\ _normalize_nepali_month caseless (u "  asoj ") = Ok (u "Ashwin").
Proof.
  apply (X3_aliases_resolve caseless (u "asoj") (u "Ashwin") (u "  ") (u " ")).
  - left. reflexivity.
  - reflexivity.
  - reflexivity.
Defined.

Lemma X4_witness :
  _normalize_nepali_month caseless (u " Xyzzy ") = Raise (UnrecognizedMonth (u " Xyzzy "))
  /\ ((u " Xyzzy " = [] /\ UnrecognizedMonth (u " Xyzzy ") = EmptyInput)
      \/ (u " Xyzzy " <> []
          /\ UnrecognizedMonth (u " Xyzzy ") = UnrecognizedMonth (u " Xyzzy ")
          /\ Str.strip (u " Xyzzy ") <> []
          /\ forall key,
               In key (keys nepali_to_english_dates_conversion) ->
               Str.startswith (lower caseless key)
                 (firstn 3 (lower caseless (Str.strip (u " Xyzzy ")))) = false)).
Proof.
  assert (H : _normalize_nepali_month caseless (u " Xyzzy ")
              = Raise (UnrecognizedMonth (u " Xyzzy ")))
    by (vm_compute; reflexivity).
  split; [exact H|].
  exact (X4_normalize_failures caseless (u " Xyzzy ") _ H).
Defined.

Lemma X5_witness :
  range_tokens caseless (Str ([Str.EN_DASH] ++ u " Jestha")) = Some ([], u "Jestha")
  /\ get_nepali_sowing_dates caseless (ymd 2024 5 1) (Str ([Str.EN_DASH] ++ u " Jestha"))
     = Raise EmptyInput.
Proof.
  assert (T : range_tokens caseless (Str ([Str.EN_DASH] ++ u " Jestha"))
              = Some ([], u "Jestha")) by reflexivity.
  split; [exact T|].
  destruct (X5_blank_month_raises caseless (ymd 2024 5 1) _ _ _ T) as (_ & _ & E & _).
  apply E. reflexivity.
Defined.

Lemma X6_witness :
  get_nepali_sowing_dates caseless (ymd 1 6 1) (Str (en_dash_range "Baisakh" "Jestha"))
  = Raise (year_out_of_range 0)
  /\ (year_out_of_range 0 = EmptyInput
      \/ (exists t, t <> [] /\ year_out_of_range 0 = UnrecognizedMonth t)
      \/ (exists y, year_out_of_range 0 = year_out_of_range y
                    /\ ~ (MINYEAR <= y <= MAXYEAR)
                    /\ year (ymd 1 6 1) - 1 <= y <= year (ymd 1 6 1) + 1)).
Proof.
  assert (H : get_nepali_sowing_dates caseless (ymd 1 6 1)
                (Str (en_dash_range "Baisakh" "Jestha")) = Raise (year_out_of_range 0))
    by (vm_compute; reflexivity).
  split; [exact H|].
  exact (X6_resolver_errors caseless (ymd 1 6 1) _ _ H).
Defined.

Lemma X7_witness :
  in_window (ymd 2024 5 1) (window_A 2024 (4, 14) (5, 15)) = true
  /\ in_window (ymd 2024 5 1) (window_B 2024 (4, 14) (5, 15)) = false.
Proof.
  assert (A : in_window (ymd 2024 5 1) (window_A 2024 (4, 14) (5, 15)) = true)
    by reflexivity.
  split; [exact A|].
  exact (X7_windows_disjoint (ymd 2024 5 1) 2024 (4, 14) (5, 15) A).
Defined.

Lemma X8_witness :
  In (ymd 2025 1 2) (days (ymd 2024 12 16) (ymd 2025 1 15)).
Proof.
  apply (X8_today_in_season caseless (ymd 2025 1 2) _ _ _
           (days (ymd 2024 12 16) (ymd 2025 1 15)) poush_magh_parses).
  - vm_compute. reflexivity.
  - vm_compute. repeat split; discriminate.
  - reflexivity.
Defined.

Lemma X9_witness :
  (1 <= List.length (days (ymd 2024 12 16) (ymd 2025 1 15)) <= 366)%nat.
Proof.
  apply (X9_sequence_length caseless (ymd 2025 1 2) _ _ _
           (days (ymd 2024 12 16) (ymd 2025 1 15)) poush_magh_parses).
  vm_compute. reflexivity.
Defined.

Lemma X10_witness :
  exists start_date end_date,
    sowing_window (ymd 2025 1 2) (u "Poush") (u "Magh") = Ok (start_date, end_date)
    /\ valid (ymd 2024 12 31)
    /\ le start_date (ymd 2024 12 31) = true /\ le (ymd 2024 12 31) end_date = true
    /\ year (ymd 2025 1 2) - 1 <= year (ymd 2024 12 31) <= year (ymd 2025 1 2) + 1.
Proof.
  apply (X10_dates_within_window caseless (ymd 2025 1 2) _ _ _
           (days (ymd 2024 12 16) (ymd 2025 1 15)) (ymd 2024 12 31)
           poush_magh_parses).
  - vm_compute. reflexivity.
  - vm_compute. do 15 right. left. reflexivity.
Defined.

Lemma X11_witness :
  get_nepali_sowing_dates caseless (ymd 2024 5 1) (Str (en_dash_range "Asoj" "Mangsir"))
  = get_nepali_sowing_dates caseless (ymd 2024 5 1)
      (Str (u " ashwin " ++ [Str.EM_DASH] ++ u " MANGSIR (terai)")).
Proof.
  apply (X11_same_months_same_dates caseless (ymd 2024 5 1) _ _
           (u "Ashwin") (u "Mangsir")).
  - exists (u "Asoj"), (u "Mangsir"). repeat split.
  - exists (u "ashwin"), (u "MANGSIR"). repeat split.
Defined.

Lemma X12_witness :
  get_nepali_sowing_dates caseless (ymd 2024 5 1)
    (Str (u "Baisakh" ++ [Str.EM_DASH] ++ u "Jestha"))
  = get_nepali_sowing_dates caseless (ymd 2024 5 1)
      (Str (u "Baisakh" ++ [ELLIPSIS] ++ u "Jestha")).
Proof.
  apply (X12_dash_class_interchangeable caseless (ymd 2024 5 1)).
  repeat (constructor;
          [first [left; reflexivity | right; repeat split]|]).
  constructor.
Defined.

Lemma X14_witness :
  get_crops_for_place caseless repeated_df may_day (u "terai")
  = (Some [(label wheat, days (ymd 2024 4 14) (ymd 2024 5 15));
           (label maize, days (ymd 2024 4 14) (ymd 2024 5 15))], None)
  /\ NoDup [label wheat; label maize]
  /\ dict_get [(label wheat, days (ymd 2024 4 14) (ymd 2024 5 15));
               (label maize, days (ymd 2024 4 14) (ymd 2024 5 15))]
       (label wheat_again)
     = Some (days (ymd 2024 4 14) (ymd 2024 5 15)).
Proof.
  assert (P : place_column (lower caseless (u "terai")) = Some Terai_Bensi_Sowing)
    by reflexivity.
  assert (L : get_crops_for_place caseless repeated_df may_day (u "terai")
              = (Some [(label wheat, days (ymd 2024 4 14) (ymd 2024 5 15));
                       (label maize, days (ymd 2024 4 14) (ymd 2024 5 15))], None))
    by (vm_compute; reflexivity).
  split; [exact L|].
  destruct (X14_one_entry_per_label caseless repeated_df may_day
              (u "terai") Terai_Bensi_Sowing _ P L) as (ND & _ & A).
  split; [exact ND|].
  apply (A 2%nat wheat_again).
  - reflexivity.
  - vm_compute. reflexivity.
  - intros j' r' Hlt N. destruct j' as [|[|[|j']]]; try lia.
    destruct j'; discriminate.
Defined.

Lemma X16_witness :
  get_nepali_sowing_dates caseless (ymd 2024 5 1)
    (Str ((en_dash_range "Baisakh" "Jestha" ++ u " (") ++ u "Not Recommend"
          ++ u "ed above 2000 m)"))
  = Ok [].
Proof.
  apply (X16_not_recommend_anywhere caseless (ymd 2024 5 1)
           (en_dash_range "Baisakh" "Jestha" ++ u " (") (u "Not Recommend")
           (u "ed above 2000 m)")).
  case_variants.
Defined.

Lemma X17_witness :
  place_column (lower caseless (u "Upper " ++ u "HIGH" ++ u "lands, mid-west terai"))
  = Some High_Hill_Sowing.
Proof.
  apply (X17_high_keyword_anywhere caseless (u "Upper ") (u "HIGH")
           (u "lands, mid-west terai")).
  case_variants.
Defined.

End FurtherExamples.
